(** * Catalogo de livros: a shallow embedding of [main.py]

    The service keeps its whole state in two module-level variables,
    [db_livros] (a Python dict from id to [Livro]) and [ultimo_id_livro]
    (the id counter).  Each endpoint is a function that reads and writes
    them and either returns a value or raises [HTTPException].

    The embedding keeps that shape: a [store] record for the two globals, a
    state-and-exception monad [M] for the endpoint bodies, and an
    insertion-ordered association list for the dict, because
    [list(db_livros.values())] exposes the dict's order. *)

From Stdlib Require Import String ZArith List Bool Lia Sorted.
Import ListNotations.
Local Open Scope Z_scope.

Set Implicit Arguments.

(* ================================================================== *)
(** ** Python containers                                               *)
(* ================================================================== *)

(** A Python [dict] with integer keys.  Iteration follows insertion
    order, assigning to a key that is already present keeps its position,
    and [del] removes the entry. *)
Module PyDict.
Section Dict.
Variable V : Type.

Definition t := list (Z * V).

Definition empty : t := [].

(** [d.get(k)] *)
Fixpoint get (k : Z) (d : t) : option V :=
  match d with
  | [] => None
  | (k', v) :: d' => if k' =? k then Some v else get k d'
  end.

(** [k in d] *)
Definition mem (k : Z) (d : t) : bool :=
  match get k d with Some _ => true | None => false end.

(** [d[k] = v] *)
Fixpoint set (k : Z) (v : V) (d : t) : t :=
  match d with
  | [] => [(k, v)]
  | (k', v') :: d' =>
      if k' =? k then (k', v) :: d' else (k', v') :: set k v d'
  end.

(** [del d[k]] (the callers check [k in d] first) *)
Fixpoint del (k : Z) (d : t) : t :=
  match d with
  | [] => []
  | (k', v') :: d' => if k' =? k then d' else (k', v') :: del k d'
  end.

(** [d.keys()] and [d.values()] *)
Definition keys (d : t) : list Z := map fst d.
Definition values (d : t) : list V := map snd d.
End Dict.
End PyDict.

(** [l[start:stop]] on a Python list: a negative index counts from the
    end, both indices are clamped to [0, len(l)], and an empty range
    gives the empty list. *)
Definition py_index (len i : Z) : Z :=
  if i <? 0 then Z.max 0 (i + len) else Z.min i len.

Definition py_slice {A} (l : list A) (start stop : Z) : list A :=
  let len := Z.of_nat (length l) in
  let lo := py_index len start in
  let hi := py_index len stop in
  firstn (Z.to_nat (hi - lo)) (skipn (Z.to_nat lo) l).

(* ================================================================== *)
(** ** Pydantic models                                                 *)
(* ================================================================== *)

(** [LivroCreate] (= [LivroBase]): the validated body of a create. *)
Record LivroCreate := mkLivroCreate {
  lc_titulo : string;
  lc_autor : string;
  lc_ano_publicacao : option Z;
  lc_genero : option string
}.

(** A field of [LivroUpdate] as pydantic tracks it: either it was not in
    the request ([Unset], reported by [model_fields_set]) or it was given,
    possibly as [None]. *)
Inductive campo (A : Type) : Type :=
| Unset : campo A
| Given : option A -> campo A.
Arguments Unset {A}.
Arguments Given {A} _.

Record LivroUpdate := mkLivroUpdate {
  lu_titulo : campo string;
  lu_autor : campo string;
  lu_ano_publicacao : campo Z;
  lu_genero : campo string
}.

(** [Livro]: a stored record.  The class declares [titulo] and [autor]
    as [str], but the model does not turn on [validate_assignment], so
    an attribute of a live instance holds whatever [setattr] put there:
    a value or [None]. *)
Record Livro := mkLivro {
  id : Z;
  titulo : option string;
  autor : option string;
  ano_publicacao : option Z;
  genero : option string
}.

(** One [(key, value)] pair of the dict that [model_dump] returns. *)
Inductive item :=
| ItTitulo (v : option string)
| ItAutor (v : option string)
| ItAnoPublicacao (v : option Z)
| ItGenero (v : option string).

(** [livro_update.model_dump(exclude_unset=True)]: the fields that were
    given, in declaration order. *)
Definition model_dump_exclude_unset (u : LivroUpdate) : list item :=
  (match lu_titulo u with Given v => [ItTitulo v] | Unset => [] end) ++
  (match lu_autor u with Given v => [ItAutor v] | Unset => [] end) ++
  (match lu_ano_publicacao u with Given v => [ItAnoPublicacao v] | Unset => [] end) ++
  (match lu_genero u with Given v => [ItGenero v] | Unset => [] end).

(** [setattr(livro, key, value)] *)
Definition setattr (l : Livro) (it : item) : Livro :=
  match it with
  | ItTitulo v => mkLivro (id l) v (autor l) (ano_publicacao l) (genero l)
  | ItAutor v => mkLivro (id l) (titulo l) v (ano_publicacao l) (genero l)
  | ItAnoPublicacao v => mkLivro (id l) (titulo l) (autor l) v (genero l)
  | ItGenero v => mkLivro (id l) (titulo l) (autor l) (ano_publicacao l) v
  end.

(** [Livro(id=i, **livro.model_dump())] *)
Definition novo_Livro (i : Z) (livro : LivroCreate) : Livro :=
  mkLivro i (Some (lc_titulo livro)) (Some (lc_autor livro))
          (lc_ano_publicacao livro) (lc_genero livro).

(* ================================================================== *)
(** ** The in-memory store and the endpoint monad                      *)
(* ================================================================== *)

Record store := mkStore {
  db_livros : PyDict.t Livro;
  ultimo_id_livro : Z
}.

(** The module as loaded: [db_livros = {}], [ultimo_id_livro = 0]. *)
Definition store_inicial : store := mkStore (PyDict.empty Livro) 0.

(** What a request can raise: [HTTPException(404)] from the handlers and
    the framework's 422 when the body does not validate. *)
Inductive erro :=
| NotFound (livro_id : Z)
| ValidationError.

Inductive resultado (A : Type) : Type :=
| Ok : A -> resultado A
| Raise : erro -> resultado A.
Arguments Ok {A} _.
Arguments Raise {A} _.

(** A computation over the globals.  An exception keeps the store as it
    was when it was raised, as in Python. *)
Definition M (A : Type) : Type := store -> resultado A * store.

Definition ret {A} (a : A) : M A := fun s => (Ok a, s).

Definition bind {A B} (m : M A) (f : A -> M B) : M B :=
  fun s => match m s with
           | (Ok a, s') => f a s'
           | (Raise e, s') => (Raise e, s')
           end.

Definition raise {A} (e : erro) : M A := fun s => (Raise e, s).

Definition get_db : M (PyDict.t Livro) := fun s => (Ok (db_livros s), s).
Definition put_db (d : PyDict.t Livro) : M unit :=
  fun s => (Ok tt, mkStore d (ultimo_id_livro s)).
Definition get_ultimo_id : M Z := fun s => (Ok (ultimo_id_livro s), s).
Definition put_ultimo_id (n : Z) : M unit :=
  fun s => (Ok tt, mkStore (db_livros s) n).

Declare Scope monad_scope.
Delimit Scope monad_scope with monad.
Notation "x <- m ;; k" := (bind m (fun x => k))
  (at level 61, m at next level, right associativity) : monad_scope.
Notation "m ;; k" := (bind m (fun _ => k))
  (at level 61, right associativity) : monad_scope.
Local Open Scope monad_scope.

(* ================================================================== *)
(** ** Endpoints                                                       *)
(* ================================================================== *)

(** [POST /livros] *)
Definition criar_livro (livro : LivroCreate) : M Livro :=
  n <- get_ultimo_id ;;
  put_ultimo_id (n + 1) ;;
  n' <- get_ultimo_id ;;
  let novo_livro := novo_Livro n' livro in
  d <- get_db ;;
  put_db (PyDict.set (id novo_livro) novo_livro d) ;;
  ret novo_livro.

(** [GET /livros?skip=&limit=] *)
Definition listar_livros (skip limit : Z) : M (list Livro) :=
  d <- get_db ;;
  let livros_lista := PyDict.values d in
  let skip := if skip <? 0 then 0 else skip in
  let limit := if limit <=? 0 then 10 else limit in
  ret (py_slice livros_lista skip (skip + limit)).

(** [GET /livros/{livro_id}] *)
Definition obter_livro (livro_id : Z) : M Livro :=
  d <- get_db ;;
  match PyDict.get livro_id d with
  | None => raise (NotFound livro_id)
  | Some livro => ret livro
  end.

(** [for key, value in update_data.items(): setattr(livro_existente, key, value)].
    [livro_existente] is the very object the dict holds under [livro_id],
    so each [setattr] shows in the store at once; [obj] is the object's
    current contents. *)
Fixpoint setattr_loop (livro_id : Z) (update_data : list item) (obj : Livro) : M Livro :=
  match update_data with
  | [] => ret obj
  | it :: rest =>
      let obj' := setattr obj it in
      d <- get_db ;;
      put_db (PyDict.set livro_id obj' d) ;;
      setattr_loop livro_id rest obj'
  end.

(** [PUT /livros/{livro_id}] *)
Definition atualizar_livro (livro_id : Z) (livro_update : LivroUpdate) : M Livro :=
  d <- get_db ;;
  match PyDict.get livro_id d with
  | None => raise (NotFound livro_id)
  | Some livro_existente =>
      let update_data := model_dump_exclude_unset livro_update in
      livro_existente <- setattr_loop livro_id update_data livro_existente ;;
      d <- get_db ;;
      put_db (PyDict.set livro_id livro_existente d) ;;
      ret livro_existente
  end.

(** [DELETE /livros/{livro_id}]; the result stands for the confirmation
    message, which only carries the id. *)
Definition deletar_livro (livro_id : Z) : M Z :=
  d <- get_db ;;
  if negb (PyDict.mem livro_id d) then raise (NotFound livro_id)
  else
    d <- get_db ;;
    put_db (PyDict.del livro_id d) ;;
    ret livro_id.

(* ================================================================== *)
(** ** The HTTP boundary                                               *)
(* ================================================================== *)

(** A field of a JSON request body as the framework's validation sees
    it: missing from the object, [null], something it accepts for the
    declared type (a string for [str], an integer for [int]), or
    something it rejects. *)
Inductive raw (A : Type) : Type :=
| Omitted : raw A
| Null : raw A
| Value : A -> raw A
| Invalid : raw A.
Arguments Omitted {A}.
Arguments Null {A}.
Arguments Value {A} _.
Arguments Invalid {A}.

Record corpo := mkCorpo {
  c_titulo : raw string;
  c_autor : raw string;
  c_ano_publicacao : raw Z;
  c_genero : raw string
}.

(** [x: T = Field(...)]: required, and [None] is not a [T]. *)
Definition required {A} (r : raw A) : option A :=
  match r with
  | Value a => Some a
  | Omitted | Null | Invalid => None
  end.

(** [x: Optional[T] = None]: the validated value, and whether the field
    was set. *)
Definition optional {A} (r : raw A) : option (campo A) :=
  match r with
  | Omitted => Some Unset
  | Null => Some (Given None)
  | Value a => Some (Given (Some a))
  | Invalid => None
  end.

(** The value of an attribute: the default [None] when it was not set. *)
Definition valor {A} (c : campo A) : option A :=
  match c with
  | Unset => None
  | Given v => v
  end.

Definition validate_LivroCreate (b : corpo) : option LivroCreate :=
  match required (c_titulo b), required (c_autor b),
        optional (c_ano_publicacao b), optional (c_genero b) with
  | Some t, Some a, Some y, Some g => Some (mkLivroCreate t a (valor y) (valor g))
  | _, _, _, _ => None
  end.

Definition validate_LivroUpdate (b : corpo) : option LivroUpdate :=
  match optional (c_titulo b), optional (c_autor b),
        optional (c_ano_publicacao b), optional (c_genero b) with
  | Some t, Some a, Some y, Some g => Some (mkLivroUpdate t a y g)
  | _, _, _, _ => None
  end.

Inductive request :=
| POST_livros (b : corpo)
| GET_livros (skip limit : Z)
| GET_livro (livro_id : Z)
| PUT_livro (livro_id : Z) (b : corpo)
| DELETE_livro (livro_id : Z).

Inductive response :=
| RLivro (l : Livro)
| RLista (ls : list Livro)
| RMensagem (livro_id : Z).

(** Routing: the body is validated before the handler runs. *)
Definition app (r : request) : M response :=
  match r with
  | POST_livros b =>
      match validate_LivroCreate b with
      | None => raise ValidationError
      | Some livro => l <- criar_livro livro ;; ret (RLivro l)
      end
  | GET_livros skip limit => ls <- listar_livros skip limit ;; ret (RLista ls)
  | GET_livro livro_id => l <- obter_livro livro_id ;; ret (RLivro l)
  | PUT_livro livro_id b =>
      match validate_LivroUpdate b with
      | None => raise ValidationError
      | Some u => l <- atualizar_livro livro_id u ;; ret (RLivro l)
      end
  | DELETE_livro livro_id => i <- deletar_livro livro_id ;; ret (RMensagem i)
  end.

(** A session: the requests served one after another, each paired with
    what it got back. *)
Fixpoint serve (rs : list request) (s : store)
  : list (request * resultado response) * store :=
  match rs with
  | [] => ([], s)
  | r :: rs' =>
      let (x, s') := app r s in
      let (tr, s'') := serve rs' s' in
      ((r, x) :: tr, s'')
  end.

(** The ids handed out by the creates of a session. *)
Fixpoint ids_criados (tr : list (request * resultado response)) : list Z :=
  match tr with
  | [] => []
  | (POST_livros _, Ok (RLivro l)) :: tr' => id l :: ids_criados tr'
  | _ :: tr' => ids_criados tr'
  end.

(** [n] consecutive integers from [a]. *)
Fixpoint Zseq (a : Z) (n : nat) : list Z :=
  match n with
  | O => []
  | S n' => a :: Zseq (a + 1) n'
  end.

(* ================================================================== *)
(** ** Derived notions used by the statements                          *)
(* ================================================================== *)

(** [livros_lista = list(db_livros.values())], the full enumeration that
    [listar_livros] slices. *)
Definition livros_lista (s : store) : list Livro := PyDict.values (db_livros s).

(** The record after the whole [setattr] loop. *)
Definition atualizado (u : LivroUpdate) (l : Livro) : Livro :=
  fold_left setattr (model_dump_exclude_unset u) l.

(** What an update leaves in a field: the given value, or the old one. *)
Definition escolhe {A} (c : campo A) (old : option A) : option A :=
  match c with
  | Unset => old
  | Given v => v
  end.

(** Store invariant: keys ascend in dict order, every record sits under
    its own id, and no key exceeds the counter. *)
Definition entrada_ok (ultimo : Z) (kv : Z * Livro) : Prop :=
  id (snd kv) = fst kv /\ fst kv <= ultimo.

Definition inv (s : store) : Prop :=
  StronglySorted Z.lt (PyDict.keys (db_livros s)) /\
  Forall (entrada_ok (ultimo_id_livro s)) (db_livros s).

Definition id_lt (a b : Livro) : Prop := id a < id b.

(** What a request body's field does to the stored attribute [old],
    giving [new]: nothing when it is left out, and otherwise the value it
    carries, [null] included. *)
Definition raw_escrito {A} (r : raw A) (old new : option A) : Prop :=
  match r with
  | Omitted => new = old
  | Null => new = None
  | Value a => new = Some a
  | Invalid => True
  end.

(** The same for [titulo] and [autor], whose [null] is left out of the
    statement. *)
Definition raw_escrito_texto (r : raw string) (old new : option string) : Prop :=
  match r with
  | Omitted => new = old
  | Value a => new = Some a
  | Null | Invalid => True
  end.

(** What a create body's optional field stores. *)
Definition raw_valor {A} (r : raw A) : option A :=
  match r with
  | Value a => Some a
  | Omitted | Null | Invalid => None
  end.

(** An update that sets exactly one field, with the record it should
    turn [l] into. *)
Inductive um_campo (l : Livro) : LivroUpdate -> Livro -> Prop :=
| SoTitulo v :
    um_campo l (mkLivroUpdate (Given v) Unset Unset Unset)
             (mkLivro (id l) v (autor l) (ano_publicacao l) (genero l))
| SoAutor v :
    um_campo l (mkLivroUpdate Unset (Given v) Unset Unset)
             (mkLivro (id l) (titulo l) v (ano_publicacao l) (genero l))
| SoAnoPublicacao v :
    um_campo l (mkLivroUpdate Unset Unset (Given v) Unset)
             (mkLivro (id l) (titulo l) (autor l) v (genero l))
| SoGenero v :
    um_campo l (mkLivroUpdate Unset Unset Unset (Given v))
             (mkLivro (id l) (titulo l) (autor l) (ano_publicacao l) v).

(** [s'] differs from [s] at most in the record under [k], which is now
    [l']: same counter, same keys in the same order, same other records. *)
Definition so_altera (k : Z) (l' : Livro) (s s' : store) : Prop :=
  ultimo_id_livro s' = ultimo_id_livro s /\
  PyDict.keys (db_livros s') = PyDict.keys (db_livros s) /\
  PyDict.get k (db_livros s') = Some l' /\
  forall k', k' <> k ->
    PyDict.get k' (db_livros s') = PyDict.get k' (db_livros s).

(** [GET /]: the welcome message, as the pairs of the returned dict. *)
Definition read_root : M (list (string * string)) :=
  ret [("Bem-vindo"%string, "API da Livraria Coruja"%string)].

(** The body [{}] of an update: no field given. *)
Definition corpo_vazio : corpo := mkCorpo Omitted Omitted Omitted Omitted.

(** Two updates in a row seen as one: a field of the second wins when it
    is given, otherwise the first one's stands. *)
Definition merge_campo {A} (c1 c2 : campo A) : campo A :=
  match c2 with
  | Unset => c1
  | Given _ => c2
  end.

Definition merge_update (u1 u2 : LivroUpdate) : LivroUpdate :=
  mkLivroUpdate (merge_campo (lu_titulo u1) (lu_titulo u2))
                (merge_campo (lu_autor u1) (lu_autor u2))
                (merge_campo (lu_ano_publicacao u1) (lu_ano_publicacao u2))
                (merge_campo (lu_genero u1) (lu_genero u2)).

(** The requests that only read. *)
Definition so_leitura (r : request) : bool :=
  match r with
  | GET_livros _ _ | GET_livro _ => true
  | POST_livros _ | PUT_livro _ _ | DELETE_livro _ => false
  end.

(** The number of deletes of a session that removed a record. *)
Fixpoint n_removidos (tr : list (request * resultado response)) : nat :=
  match tr with
  | [] => O
  | (DELETE_livro _, Ok _) :: tr' => S (n_removidos tr')
  | _ :: tr' => n_removidos tr'
  end.

(** The bounds [listar_livros] slices with. *)
Definition skip_efetivo (skip : Z) : Z := if skip <? 0 then 0 else skip.
Definition limit_efetivo (limit : Z) : Z := if limit <=? 0 then 10 else limit.

(** Every key is at least 1 and the counter is not negative. *)
Definition ids_positivos (s : store) : Prop :=
  0 <= ultimo_id_livro s /\
  Forall (fun kv : Z * Livro => 1 <= fst kv) (db_livros s).

(** Request bodies and stores of the worked examples. *)
Module Exemplos.
Local Open Scope string_scope.

Definition dune : corpo :=
  mkCorpo (Value "Dune") (Value "Herbert") Omitted Omitted.
Definition dune_scifi : corpo :=
  mkCorpo (Value "Dune") (Value "Herbert") (Value 1965) (Value "Sci-Fi").
Definition foundation : corpo :=
  mkCorpo (Value "Foundation") (Value "Asimov") Omitted Omitted.
Definition sem_titulo : corpo :=
  mkCorpo (Value "") (Value "Herbert") Omitted Omitted.
Definition titulo_null : corpo := mkCorpo Null Omitted Omitted Omitted.
Definition genero_null : corpo := mkCorpo Omitted Omitted Omitted Null.
Definition so_genero : corpo := mkCorpo Omitted Omitted Omitted (Value "Sci-Fi").

Definition livro_dune : Livro :=
  mkLivro 1 (Some "Dune") (Some "Herbert") None None.
Definition livro_dune_scifi : Livro :=
  mkLivro 1 (Some "Dune") (Some "Herbert") (Some 1965) (Some "Sci-Fi").

(** The store after one create. *)
Definition um_livro : store := mkStore [(1, livro_dune)] 1.
Definition um_livro_scifi : store := mkStore [(1, livro_dune_scifi)] 1.

Definition livro_sem_titulo : Livro :=
  mkLivro 1 None (Some "Herbert") None None.
Definition livro_titulo_vazio : Livro :=
  mkLivro 1 (Some "") (Some "Herbert") None None.

(** The store after two creates. *)
Definition livro_foundation : Livro :=
  mkLivro 2 (Some "Foundation") (Some "Asimov") None None.
Definition dois_livros : store :=
  mkStore [(1, livro_dune); (2, livro_foundation)] 2.

(** Eleven creates in a row, one more than the default page size. *)
Definition onze_creates : list request := repeat (POST_livros dune) 11.

(** Four creates with a delete and an update in between: ids 1, 3 and 4
    remain. *)
Definition sessao_mista : list request :=
  [POST_livros dune; POST_livros foundation; POST_livros dune_scifi;
   DELETE_livro 2; PUT_livro 1 so_genero; POST_livros foundation].
End Exemplos.

(* ================================================================== *)
(** ** Facts about the containers                                      *)
(* ================================================================== *)

Module PyDictFacts.
Section Facts.
Variable V : Type.
Implicit Types (d : PyDict.t V) (k : Z) (v : V).

Lemma get_set_same k v d : PyDict.get k (PyDict.set k v d) = Some v.
Proof.
  induction d as [|[k' v'] d IH]; simpl.
  - now rewrite Z.eqb_refl.
  - destruct (k' =? k) eqn:E; simpl; rewrite E; auto.
Qed.

Lemma get_set_other k k' v d :
  k <> k' -> PyDict.get k' (PyDict.set k v d) = PyDict.get k' d.
Proof.
  intros Hne. induction d as [|[k0 v0] d IH]; simpl.
  - destruct (k =? k') eqn:E; auto. apply Z.eqb_eq in E. contradiction.
  - destruct (k0 =? k) eqn:E; simpl.
    + apply Z.eqb_eq in E. subst k0.
      destruct (k =? k') eqn:E'; auto. apply Z.eqb_eq in E'. contradiction.
    + now rewrite IH.
Qed.

Lemma set_set k v w d : PyDict.set k v (PyDict.set k w d) = PyDict.set k v d.
Proof.
  induction d as [|[k' v'] d IH]; simpl.
  - now rewrite Z.eqb_refl.
  - destruct (k' =? k) eqn:E; simpl; rewrite E; auto. now rewrite IH.
Qed.

Lemma get_none_notin k d : PyDict.get k d = None <-> ~ In k (PyDict.keys d).
Proof.
  induction d as [|[k' v'] d IH]; simpl.
  - tauto.
  - destruct (k' =? k) eqn:E.
    + apply Z.eqb_eq in E. split; [discriminate | intros H; elim H; auto].
    + apply Z.eqb_neq in E. rewrite IH. tauto.
Qed.

Lemma get_some_in k v d : PyDict.get k d = Some v -> In (k, v) d.
Proof.
  induction d as [|[k' v'] d IH]; simpl; [discriminate|].
  destruct (k' =? k) eqn:E; auto.
  apply Z.eqb_eq in E. intros [= ->]. subst. auto.
Qed.

(** Assigning to a present key keeps every key where it is. *)
Lemma keys_set_present k v w d :
  PyDict.get k d = Some w -> PyDict.keys (PyDict.set k v d) = PyDict.keys d.
Proof.
  induction d as [|[k' v'] d IH]; simpl; [discriminate|].
  destruct (k' =? k) eqn:E; simpl; auto.
  intros H. now rewrite IH.
Qed.

(** Assigning to a new key appends the entry. *)
Lemma set_absent k v d :
  PyDict.get k d = None -> PyDict.set k v d = d ++ [(k, v)].
Proof.
  induction d as [|[k' v'] d IH]; simpl; auto.
  destruct (k' =? k) eqn:E; [discriminate|].
  intros H. now rewrite IH.
Qed.

Lemma in_set k v d kv :
  In kv (PyDict.set k v d) -> kv = (k, v) \/ In kv d.
Proof.
  induction d as [|[k' v'] d IH]; simpl.
  - intros [H|[]]; auto.
  - destruct (k' =? k) eqn:E; simpl.
    + apply Z.eqb_eq in E. subst k'. intros [H|H]; auto.
    + intros [H|H]; auto. apply IH in H. tauto.
Qed.

Lemma in_del k d kv : In kv (PyDict.del k d) -> In kv d.
Proof.
  induction d as [|[k' v'] d IH]; simpl; auto.
  destruct (k' =? k); simpl; tauto.
Qed.

Lemma keys_del_sorted k d :
  StronglySorted Z.lt (PyDict.keys d) ->
  StronglySorted Z.lt (PyDict.keys (PyDict.del k d)).
Proof.
  induction d as [|[k' v'] d IH]; simpl; auto.
  intros H. inversion H as [|? ? Hs Hf]; subst.
  destruct (k' =? k); simpl; auto.
  constructor; auto.
  rewrite Forall_forall in *. intros x Hx. apply Hf.
  unfold PyDict.keys in *. rewrite in_map_iff in *.
  destruct Hx as [kv [<- Hin]]. exists kv. split; auto.
  eapply in_del; eauto.
Qed.

(** With ascending keys, a record found by enumeration is the one
    [get] returns. *)
Lemma in_sorted_get k v d :
  StronglySorted Z.lt (PyDict.keys d) -> In (k, v) d -> PyDict.get k d = Some v.
Proof.
  induction d as [|[k' v'] d IH]; simpl; [tauto|].
  intros H [Hin|Hin]; inversion H as [|? ? Hs Hf]; subst.
  - inversion Hin; subst. now rewrite Z.eqb_refl.
  - destruct (k' =? k) eqn:E; auto.
    apply Z.eqb_eq in E. subst k'.
    rewrite Forall_forall in Hf.
    assert (k < k) by (apply Hf; apply in_map_iff; exists (k, v); auto).
    lia.
Qed.
End Facts.
End PyDictFacts.

(** After the coercions of [listar_livros] both slice bounds are
    non-negative, and the slice is a plain window. *)
Lemma py_slice_window {A} (l : list A) (a n : Z) :
  0 <= a -> 0 < n ->
  py_slice l a (a + n) = firstn (Z.to_nat n) (skipn (Z.to_nat a) l).
Proof.
  intros Ha Hn. unfold py_slice, py_index.
  destruct (a <? 0) eqn:E1; [apply Z.ltb_lt in E1; lia|].
  destruct (a + n <? 0) eqn:E2; [apply Z.ltb_lt in E2; lia|].
  set (len := Z.of_nat (length l)).
  destruct (Z_le_gt_dec len a) as [Hle|Hgt].
  - rewrite !skipn_all2 by (subst len; lia). now rewrite !firstn_nil.
  - replace (Z.min a len) with a by lia.
    destruct (Z_le_gt_dec (a + n) len) as [Hle'|Hgt'].
    + replace (Z.min (a + n) len) with (a + n) by lia.
      now replace (a + n - a) with n by lia.
    + replace (Z.min (a + n) len) with len by lia.
      rewrite !firstn_all2; auto; rewrite length_skipn; subst len; lia.
Qed.

(* ================================================================== *)
(** ** What each endpoint does to the store                            *)
(* ================================================================== *)

Lemma criar_livro_run (livro : LivroCreate) (s : store) :
  let n := ultimo_id_livro s + 1 in
  criar_livro livro s =
    (Ok (novo_Livro n livro),
     mkStore (PyDict.set n (novo_Livro n livro) (db_livros s)) n).
Proof. reflexivity. Qed.

Lemma listar_livros_run (skip limit : Z) (s : store) :
  listar_livros skip limit s =
    (Ok (py_slice (livros_lista s)
           (if skip <? 0 then 0 else skip)
           ((if skip <? 0 then 0 else skip) + (if limit <=? 0 then 10 else limit))),
     s).
Proof. reflexivity. Qed.

Lemma obter_livro_found (k : Z) (l : Livro) (s : store) :
  PyDict.get k (db_livros s) = Some l -> obter_livro k s = (Ok l, s).
Proof. intros H. unfold obter_livro, bind, get_db. now rewrite H. Qed.

Lemma obter_livro_404 (k : Z) (s : store) :
  PyDict.get k (db_livros s) = None -> obter_livro k s = (Raise (NotFound k), s).
Proof. intros H. unfold obter_livro, bind, get_db. now rewrite H. Qed.

(** The loop followed by the final [db_livros[livro_id] = livro_existente]
    amounts to one assignment of the fully updated record. *)
Lemma setattr_loop_run (k : Z) (its : list item) :
  forall (obj : Livro) (s : store),
    (l <- setattr_loop k its obj ;;
     d <- get_db ;; put_db (PyDict.set k l d) ;; ret l) s =
    (Ok (fold_left setattr its obj),
     mkStore (PyDict.set k (fold_left setattr its obj) (db_livros s))
             (ultimo_id_livro s)).
Proof.
  induction its as [|it its IH]; intros obj s.
  - reflexivity.
  - specialize (IH (setattr obj it)
                   (mkStore (PyDict.set k (setattr obj it) (db_livros s))
                            (ultimo_id_livro s))).
    simpl in IH. rewrite PyDictFacts.set_set in IH.
    simpl. rewrite <- IH. reflexivity.
Qed.

Lemma atualizar_livro_found (k : Z) (u : LivroUpdate) (l : Livro) (s : store) :
  PyDict.get k (db_livros s) = Some l ->
  atualizar_livro k u s =
    (Ok (atualizado u l),
     mkStore (PyDict.set k (atualizado u l) (db_livros s)) (ultimo_id_livro s)).
Proof.
  intros H. unfold atualizar_livro.
  unfold bind at 1. unfold get_db at 1. rewrite H.
  apply setattr_loop_run.
Qed.

Lemma atualizar_livro_404 (k : Z) (u : LivroUpdate) (s : store) :
  PyDict.get k (db_livros s) = None ->
  atualizar_livro k u s = (Raise (NotFound k), s).
Proof.
  intros H. unfold atualizar_livro.
  unfold bind at 1. unfold get_db at 1. now rewrite H.
Qed.

Lemma deletar_livro_found (k : Z) (l : Livro) (s : store) :
  PyDict.get k (db_livros s) = Some l ->
  deletar_livro k s =
    (Ok k, mkStore (PyDict.del k (db_livros s)) (ultimo_id_livro s)).
Proof.
  intros H. unfold deletar_livro, bind, get_db, PyDict.mem. now rewrite H.
Qed.

Lemma deletar_livro_404 (k : Z) (s : store) :
  PyDict.get k (db_livros s) = None ->
  deletar_livro k s = (Raise (NotFound k), s).
Proof.
  intros H. unfold deletar_livro, bind, get_db, PyDict.mem. now rewrite H.
Qed.

(** The updated record, field by field. *)
Lemma atualizado_campos (u : LivroUpdate) (l : Livro) :
  atualizado u l =
    mkLivro (id l)
            (escolhe (lu_titulo u) (titulo l))
            (escolhe (lu_autor u) (autor l))
            (escolhe (lu_ano_publicacao u) (ano_publicacao l))
            (escolhe (lu_genero u) (genero l)).
Proof.
  destruct u as [[|t] [|a] [|y] [|g]], l; reflexivity.
Qed.

Lemma atualizado_id (u : LivroUpdate) (l : Livro) : id (atualizado u l) = id l.
Proof. now rewrite atualizado_campos. Qed.

Lemma atualizado_idem (u : LivroUpdate) (l : Livro) :
  atualizado u (atualizado u l) = atualizado u l.
Proof.
  rewrite !atualizado_campos.
  destruct u as [[|t] [|a] [|y] [|g]]; reflexivity.
Qed.

(* ================================================================== *)
(** ** The store invariant                                             *)
(* ================================================================== *)

Lemma sorted_snoc (l : list Z) (n : Z) :
  StronglySorted Z.lt l -> Forall (fun x => x < n) l ->
  StronglySorted Z.lt (l ++ [n]).
Proof.
  induction l as [|x l IH]; simpl; intros Hs Hf.
  - repeat constructor.
  - inversion Hs as [|? ? Hs' Hx]; inversion Hf as [|? ? Hxn Hf']; subst.
    constructor; auto.
    apply Forall_app. split; auto.
Qed.

Lemma inv_inicial : inv store_inicial.
Proof. split; constructor. Qed.

Lemma inv_fresh (s : store) :
  inv s -> PyDict.get (ultimo_id_livro s + 1) (db_livros s) = None.
Proof.
  intros [_ Hf]. apply PyDictFacts.get_none_notin.
  unfold PyDict.keys. rewrite in_map_iff. intros [kv [Hk Hin]].
  rewrite Forall_forall in Hf. destruct (Hf kv Hin) as [_ Hle]. lia.
Qed.

Lemma inv_criar (livro : LivroCreate) (s : store) :
  inv s -> inv (snd (criar_livro livro s)).
Proof.
  intros Hinv. pose proof (inv_fresh Hinv) as Hfresh.
  destruct Hinv as [Hs Hf].
  rewrite criar_livro_run. cbv zeta. simpl snd.
  rewrite PyDictFacts.set_absent by exact Hfresh.
  split; simpl.
  - unfold PyDict.keys in *. rewrite map_app. simpl.
    apply sorted_snoc; auto.
    rewrite Forall_forall in *. intros x Hx.
    apply in_map_iff in Hx. destruct Hx as [kv [<- Hin]].
    destruct (Hf kv Hin). lia.
  - apply Forall_app. split.
    + rewrite Forall_forall in *. intros kv Hin.
      destruct (Hf kv Hin). split; auto. lia.
    + repeat constructor; simpl; lia.
Qed.

Lemma inv_atualizar (k : Z) (u : LivroUpdate) (s : store) :
  inv s -> inv (snd (atualizar_livro k u s)).
Proof.
  intros [Hs Hf].
  destruct (PyDict.get k (db_livros s)) as [l|] eqn:Hget.
  - rewrite atualizar_livro_found with (l := l) by exact Hget. split; simpl.
    + now rewrite PyDictFacts.keys_set_present with (w := l) by exact Hget.
    + rewrite Forall_forall in *. intros kv Hin.
      apply PyDictFacts.in_set in Hin. destruct Hin as [->|Hin]; auto.
      apply PyDictFacts.get_some_in in Hget.
      destruct (Hf _ Hget) as [Hid Hle]. simpl in *.
      split; simpl; auto. now rewrite atualizado_id.
  - rewrite atualizar_livro_404 by exact Hget. now split.
Qed.

Lemma inv_deletar (k : Z) (s : store) :
  inv s -> inv (snd (deletar_livro k s)).
Proof.
  intros [Hs Hf].
  destruct (PyDict.get k (db_livros s)) as [l|] eqn:Hget.
  - rewrite deletar_livro_found with (l := l) by exact Hget. split; simpl.
    + now apply PyDictFacts.keys_del_sorted.
    + rewrite Forall_forall in *. intros kv Hin.
      apply Hf. eapply PyDictFacts.in_del; eauto.
  - rewrite deletar_livro_404 by exact Hget. now split.
Qed.

(** Lifting a fact about a handler's final store through the routing. *)
Lemma snd_bind_ret {A B} (m : M A) (f : A -> B) (s : store) :
  snd ((x <- m ;; ret (f x)) s) = snd (m s).
Proof. unfold bind, ret. destruct (m s) as [[a|e] s']; reflexivity. Qed.

Lemma fst_bind_ret {A B} (m : M A) (f : A -> B) (s : store) :
  fst ((x <- m ;; ret (f x)) s) =
    match fst (m s) with Ok a => Ok (f a) | Raise e => Raise e end.
Proof. unfold bind, ret. destruct (m s) as [[a|e] s']; reflexivity. Qed.

Lemma inv_app (r : request) (s : store) : inv s -> inv (snd (app r s)).
Proof.
  intros Hinv. destruct r as [b|skip limit|k|k b|k]; simpl.
  - destruct (validate_LivroCreate b); [|exact Hinv].
    rewrite snd_bind_ret. now apply inv_criar.
  - exact Hinv.
  - rewrite snd_bind_ret.
    destruct (PyDict.get k (db_livros s)) as [l|] eqn:Hget.
    + now rewrite obter_livro_found with (l := l) by exact Hget.
    + now rewrite obter_livro_404 by exact Hget.
  - destruct (validate_LivroUpdate b); [|exact Hinv].
    rewrite snd_bind_ret. now apply inv_atualizar.
  - rewrite snd_bind_ret. now apply inv_deletar.
Qed.

Lemma inv_serve (rs : list request) :
  forall s, inv s -> inv (snd (serve rs s)).
Proof.
  induction rs as [|r rs IH]; intros s Hinv; simpl; auto.
  destruct (app r s) as [x s'] eqn:Happ.
  specialize (IH s'). destruct (serve rs s') as [tr s''].
  simpl in *. apply IH.
  replace s' with (snd (app r s)) by now rewrite Happ.
  now apply inv_app.
Qed.

(* ================================================================== *)
(** ** Identifier allocation                                           *)
(* ================================================================== *)

Lemma Zseq_lower (n : nat) : forall a, Forall (fun x => a <= x) (Zseq a n).
Proof.
  induction n as [|n IH]; intros a; simpl; constructor; [lia|].
  eapply Forall_impl; [|apply (IH (a + 1))]. simpl. intros; lia.
Qed.

Lemma Zseq_sorted (n : nat) : forall a, StronglySorted Z.lt (Zseq a n).
Proof.
  induction n as [|n IH]; intros a; simpl; constructor; auto.
  eapply Forall_impl; [|apply (Zseq_lower n (a + 1))]. simpl. intros; lia.
Qed.

Lemma Zseq_length (n : nat) : forall a, length (Zseq a n) = n.
Proof. induction n; intros; simpl; auto. Qed.

Lemma sorted_lt_NoDup (l : list Z) : StronglySorted Z.lt l -> NoDup l.
Proof.
  intros Hs. induction Hs as [|x l' Hs IH Hf]; constructor; auto.
  intros Hin. rewrite Forall_forall in Hf. specialize (Hf x Hin). lia.
Qed.

(** Only a successful create moves the counter, and it moves it by one. *)
Lemma app_ultimo_id (r : request) (s : store) :
  ultimo_id_livro (snd (app r s)) =
    match r, fst (app r s) with
    | POST_livros _, Ok _ => ultimo_id_livro s + 1
    | _, _ => ultimo_id_livro s
    end.
Proof.
  destruct r as [b|skip limit|k|k b|k]; simpl.
  - destruct (validate_LivroCreate b); reflexivity.
  - reflexivity.
  - rewrite snd_bind_ret.
    destruct (PyDict.get k (db_livros s)) as [l|] eqn:Hget.
    + now rewrite obter_livro_found with (l := l) by exact Hget.
    + now rewrite obter_livro_404 by exact Hget.
  - destruct (validate_LivroUpdate b) as [u|]; [|reflexivity].
    rewrite snd_bind_ret.
    destruct (PyDict.get k (db_livros s)) as [l|] eqn:Hget.
    + now rewrite atualizar_livro_found with (l := l) by exact Hget.
    + now rewrite atualizar_livro_404 by exact Hget.
  - rewrite snd_bind_ret.
    destruct (PyDict.get k (db_livros s)) as [l|] eqn:Hget.
    + now rewrite deletar_livro_found with (l := l) by exact Hget.
    + now rewrite deletar_livro_404 by exact Hget.
Qed.

Lemma ids_serve (rs : list request) :
  forall s, exists n : nat,
    ids_criados (fst (serve rs s)) = Zseq (ultimo_id_livro s + 1) n /\
    ultimo_id_livro (snd (serve rs s)) = ultimo_id_livro s + Z.of_nat n.
Proof.
  induction rs as [|r rs IH]; intros s; simpl.
  - exists O. simpl. split; [reflexivity | lia].
  - pose proof (app_ultimo_id r s) as Hu.
    destruct (app r s) as [x s'] eqn:Happ.
    destruct (IH s') as [n [Hids Hult]].
    destruct (serve rs s') as [tr s'']. simpl in *.
    destruct r as [b|skip limit|k|k b|k];
      try (exists n; rewrite Hu in *; split; assumption).
    clear Hu. simpl in Happ.
    destruct (validate_LivroCreate b) as [livro|].
    + unfold bind in Happ. rewrite criar_livro_run in Happ.
      cbv zeta in Happ. injection Happ as <- <-. simpl in *.
      exists (S n). simpl. rewrite Hids. split; [reflexivity | lia].
    + injection Happ as <- <-. simpl in *.
      exists n. split; assumption.
Qed.

(** C3: over any session from the freshly loaded module, whatever requests
    come between the creates, the ids returned by the successful creates
    are 1, 2, 3, ... in that order: strictly increasing, starting at 1 and
    without repetition, also after deletes. *)
Theorem C3_ids_strictly_increasing (rs : list request) :
  let ids := ids_criados (fst (serve rs store_inicial)) in
  ids = Zseq 1 (length ids) /\
  StronglySorted Z.lt ids /\
  NoDup ids /\
  hd 1 ids = 1.
Proof.
  intros ids. destruct (ids_serve rs store_inicial) as [n [Hids _]].
  simpl in Hids. fold ids in Hids.
  assert (Hs : StronglySorted Z.lt ids) by (rewrite Hids; apply Zseq_sorted).
  repeat split; auto.
  - rewrite Hids at 2. now rewrite Zseq_length.
  - now apply sorted_lt_NoDup.
  - rewrite Hids. destruct n; reflexivity.
Qed.

(* ================================================================== *)
(** ** Listing                                                         *)
(* ================================================================== *)

Lemma values_sorted (d : PyDict.t Livro) :
  StronglySorted Z.lt (PyDict.keys d) ->
  Forall (fun kv => id (snd kv) = fst kv) d ->
  StronglySorted id_lt (PyDict.values d).
Proof.
  induction d as [|[k l] d IH]; simpl; intros Hs Hf; [constructor|].
  inversion Hs as [|? ? Hs' Hk]; inversion Hf as [|? ? Hkl Hf']; subst.
  constructor; auto.
  rewrite Forall_forall in *. intros l' Hin.
  unfold PyDict.values in Hin. apply in_map_iff in Hin.
  destruct Hin as [[k' l''] [<- Hin]]. simpl in *.
  pose proof (Hf' _ Hin) as Hkl'. simpl in Hkl'.
  unfold id_lt. rewrite Hkl, Hkl'.
  apply Hk. unfold PyDict.keys. apply in_map_iff. exists (k', l''). auto.
Qed.

Lemma inv_ids (s : store) :
  inv s -> Forall (fun kv => id (snd kv) = fst kv) (db_livros s).
Proof.
  intros [_ Hf]. eapply Forall_impl; [|exact Hf]. now intros kv [H _].
Qed.

Lemma listar_livros_window (skip limit : Z) (s : store) :
  listar_livros skip limit s =
    (Ok (firstn (Z.to_nat (if limit <=? 0 then 10 else limit))
                (skipn (Z.to_nat skip) (livros_lista s))),
     s).
Proof.
  rewrite listar_livros_run. rewrite py_slice_window.
  - destruct (skip <? 0) eqn:E; auto.
    apply Z.ltb_lt in E. now replace (Z.to_nat skip) with (Z.to_nat 0) by lia.
  - destruct (skip <? 0) eqn:E; [lia | apply Z.ltb_ge in E; lia].
  - destruct (limit <=? 0) eqn:E; [lia | apply Z.leb_gt in E; lia].
Qed.

(** C4 as stated fails: after eleven creates the store holds the ids
    1..11, but the list operation called with its defaults ([skip = 0],
    [limit = 10]) returns only the records 1..10. *)
Lemma C4_default_list_stops_at_ten :
  map id (livros_lista (snd (serve Exemplos.onze_creates store_inicial))) =
    [1; 2; 3; 4; 5; 6; 7; 8; 9; 10; 11] /\
  (exists ls,
      listar_livros 0 10 (snd (serve Exemplos.onze_creates store_inicial)) =
        (Ok ls, snd (serve Exemplos.onze_creates store_inicial)) /\
      map id ls = [1; 2; 3; 4; 5; 6; 7; 8; 9; 10]) /\
  ~ (forall rs : list request,
        fst (listar_livros 0 10 (snd (serve rs store_inicial))) =
          Ok (livros_lista (snd (serve rs store_inicial)))).
Proof.
  split; [reflexivity|]. split.
  - eexists. split; reflexivity.
  - intros H. specialize (H Exemplos.onze_creates).
    vm_compute in H. discriminate H.
Qed.

(** C4, amended: after any session of creates, updates and deletes (and
    reads), the enumeration [list(db_livros.values())] that the list
    operation slices holds exactly the stored records, in strictly
    ascending order of id; the operation returns the window
    [skip, skip+limit) of it ([skip < 0] read as 0, [limit <= 0] read as
    10), and so all the stored records when [skip] is 0 and [limit] is at
    least their number. *)
Theorem C4_list_in_ascending_id_order (rs : list request) :
  let s := snd (serve rs store_inicial) in
  StronglySorted id_lt (livros_lista s) /\
  (forall k l, PyDict.get k (db_livros s) = Some l <->
               In l (livros_lista s) /\ id l = k) /\
  (forall skip limit,
      listar_livros skip limit s =
        (Ok (firstn (Z.to_nat (if limit <=? 0 then 10 else limit))
                    (skipn (Z.to_nat skip) (livros_lista s))), s)) /\
  (forall limit,
      Z.of_nat (length (livros_lista s)) <= limit ->
      listar_livros 0 limit s = (Ok (livros_lista s), s)).
Proof.
  intros s.
  assert (Hinv : inv s) by (apply inv_serve, inv_inicial).
  pose proof (inv_ids Hinv) as Hid. destruct Hinv as [Hs _].
  split; [|split; [|split]].
  - now apply values_sorted.
  - intros k l. split.
    + intros Hget. apply PyDictFacts.get_some_in in Hget. split.
      * unfold livros_lista, PyDict.values. apply in_map_iff.
        exists (k, l). auto.
      * rewrite Forall_forall in Hid. apply (Hid _ Hget).
    + intros [Hin <-]. unfold livros_lista, PyDict.values in Hin.
      apply in_map_iff in Hin. destruct Hin as [[k' l'] [Hl Hin]].
      simpl in Hl. subst l'.
      rewrite Forall_forall in Hid. pose proof (Hid _ Hin) as Hk. simpl in Hk.
      rewrite Hk. now apply PyDictFacts.in_sorted_get.
  - intros skip limit. apply listar_livros_window.
  - intros limit Hlen. rewrite listar_livros_window. simpl skipn.
    rewrite firstn_all2; auto.
    destruct (limit <=? 0) eqn:E; [apply Z.leb_le in E|]; lia.
Qed.

Lemma C4_list_witness :
  listar_livros 0 5 (snd (serve Exemplos.sessao_mista store_inicial)) =
    (Ok (livros_lista (snd (serve Exemplos.sessao_mista store_inicial))),
     snd (serve Exemplos.sessao_mista store_inicial)) /\
  StronglySorted id_lt
    (livros_lista (snd (serve Exemplos.sessao_mista store_inicial))) /\
  map id (livros_lista (snd (serve Exemplos.sessao_mista store_inicial))) =
    [1; 3; 4].
Proof.
  destruct (C4_list_in_ascending_id_order Exemplos.sessao_mista)
    as [Hsorted [_ [_ Hall]]].
  split; [|split].
  - apply Hall. vm_compute. discriminate.
  - exact Hsorted.
  - reflexivity.
Defined.

(* ================================================================== *)
(** ** Updates                                                         *)
(* ================================================================== *)

(** A stored title (or author) survives every update that does not
    carry an explicit [None] for it. *)
Lemma titulo_autor_kept (u : LivroUpdate) (l : Livro) :
  titulo l <> None -> autor l <> None ->
  lu_titulo u <> Given None -> lu_autor u <> Given None ->
  titulo (atualizado u l) <> None /\ autor (atualizado u l) <> None.
Proof.
  intros Ht Ha Hut Hua. rewrite atualizado_campos. simpl.
  destruct (lu_titulo u) as [|[t|]], (lu_autor u) as [|[a|]];
    simpl; split; congruence.
Qed.

(** C1: the stored record can lose its title.  After
    [POST {titulo: "Dune", autor: "Herbert"}], the request
    [PUT /livros/1 {titulo: null}] validates ([LivroUpdate.titulo] is
    [Optional[str]]), [exclude_unset] keeps the explicit [None], and
    [setattr] writes it: the record stored under id 1 has no title. *)
Theorem C1_update_null_clears_titulo :
  serve [POST_livros Exemplos.dune; PUT_livro 1 Exemplos.titulo_null]
        store_inicial =
    ([(POST_livros Exemplos.dune, Ok (RLivro Exemplos.livro_dune));
      (PUT_livro 1 Exemplos.titulo_null, Ok (RLivro Exemplos.livro_sem_titulo))],
     mkStore [(1, Exemplos.livro_sem_titulo)] 1) /\
  titulo Exemplos.livro_sem_titulo = None.
Proof. split; reflexivity. Qed.

(** C2 as stated fails: with a record whose genre is "Sci-Fi",
    [PUT {genero: null}] stores no genre. *)
Lemma C2_explicit_null_is_written :
  snd (serve [POST_livros Exemplos.dune_scifi] store_inicial) =
    Exemplos.um_livro_scifi /\
  app (PUT_livro 1 Exemplos.genero_null) Exemplos.um_livro_scifi =
    (Ok (RLivro (mkLivro 1 (Some "Dune"%string) (Some "Herbert"%string)
                         (Some 1965) None)),
     mkStore [(1, mkLivro 1 (Some "Dune"%string) (Some "Herbert"%string)
                          (Some 1965) None)] 1) /\
  ~ (forall (s : store) (k : Z) (l : Livro) (b : corpo) (u : LivroUpdate),
        PyDict.get k (db_livros s) = Some l ->
        validate_LivroUpdate b = Some u ->
        c_genero b = Null ->
        forall l', PyDict.get k (db_livros (snd (app (PUT_livro k b) s))) = Some l' ->
                   genero l' = genero l).
Proof.
  split; [reflexivity|]. split; [reflexivity|].
  intros H.
  specialize (H Exemplos.um_livro_scifi 1 Exemplos.livro_dune_scifi
                Exemplos.genero_null _ eq_refl eq_refl eq_refl _ eq_refl).
  discriminate H.
Qed.

(** C2, amended: for every existing id and every update body that
    validates, the record is returned and stored under the same id; each
    field left out of the body keeps its stored value, each field given a
    value is overwritten with it, and an optional field ([ano_publicacao],
    [genero]) given as an explicit [null] is written as [None]: the update
    can clear an optional field. *)
Theorem C2_update_writes_every_given_field
  (s : store) (k : Z) (l : Livro) (b : corpo) (u : LivroUpdate) :
  PyDict.get k (db_livros s) = Some l ->
  validate_LivroUpdate b = Some u ->
  exists l',
    fst (app (PUT_livro k b) s) = Ok (RLivro l') /\
    PyDict.get k (db_livros (snd (app (PUT_livro k b) s))) = Some l' /\
    id l' = id l /\
    raw_escrito_texto (c_titulo b) (titulo l) (titulo l') /\
    raw_escrito_texto (c_autor b) (autor l) (autor l') /\
    raw_escrito (c_ano_publicacao b) (ano_publicacao l) (ano_publicacao l') /\
    raw_escrito (c_genero b) (genero l) (genero l').
Proof.
  intros Hget Hval. exists (atualizado u l).
  simpl. rewrite Hval. unfold bind.
  rewrite atualizar_livro_found with (l := l) by exact Hget. simpl.
  rewrite PyDictFacts.get_set_same. rewrite atualizado_campos. simpl.
  unfold validate_LivroUpdate in Hval.
  destruct b as [[| |t|] [| |a|] [| |y|] [| |g|]]; simpl in Hval;
    try discriminate Hval; injection Hval as <-; simpl; repeat split.
Qed.

Lemma C2_update_writes_witness :
  exists l',
    fst (app (PUT_livro 1 Exemplos.genero_null) Exemplos.um_livro_scifi) =
      Ok (RLivro l') /\
    PyDict.get 1 (db_livros (snd (app (PUT_livro 1 Exemplos.genero_null)
                                      Exemplos.um_livro_scifi))) = Some l' /\
    id l' = 1 /\
    titulo l' = Some "Dune"%string /\
    autor l' = Some "Herbert"%string /\
    ano_publicacao l' = Some 1965 /\
    genero l' = None.
Proof.
  exact (@C2_update_writes_every_given_field
           Exemplos.um_livro_scifi 1 Exemplos.livro_dune_scifi
           Exemplos.genero_null
           (mkLivroUpdate Unset Unset Unset (Given None))
           eq_refl eq_refl).
Defined.

Lemma so_altera_set (k : Z) (l l' : Livro) (s : store) :
  PyDict.get k (db_livros s) = Some l ->
  so_altera k l' s (mkStore (PyDict.set k l' (db_livros s)) (ultimo_id_livro s)).
Proof.
  intros Hget. unfold so_altera. simpl. repeat split.
  - now rewrite PyDictFacts.keys_set_present with (w := l) by exact Hget.
  - apply PyDictFacts.get_set_same.
  - intros k' Hne. apply PyDictFacts.get_set_other. congruence.
Qed.

(** C6: for an existing id, an update that supplies exactly one field
    returns the stored record with that field replaced and every other
    field, the id included, as before; in the store only that record
    changes (same counter, same keys in the same order, same other
    records). *)
Theorem C6_single_field_update
  (s : store) (k : Z) (l l' : Livro) (u : LivroUpdate) :
  PyDict.get k (db_livros s) = Some l ->
  um_campo l u l' ->
  fst (atualizar_livro k u s) = Ok l' /\
  so_altera k l' s (snd (atualizar_livro k u s)).
Proof.
  intros Hget Hu.
  rewrite atualizar_livro_found with (l := l) by exact Hget. simpl.
  assert (Hl : atualizado u l = l') by (destruct Hu; reflexivity).
  rewrite Hl. split; [reflexivity|]. now apply so_altera_set with (l := l).
Qed.

Lemma C6_single_field_witness :
  fst (atualizar_livro 1 (mkLivroUpdate Unset Unset Unset (Given (Some "Sci-Fi"%string)))
                       Exemplos.um_livro) =
    Ok (mkLivro 1 (Some "Dune"%string) (Some "Herbert"%string) None
                (Some "Sci-Fi"%string)) /\
  so_altera 1 (mkLivro 1 (Some "Dune"%string) (Some "Herbert"%string) None
                       (Some "Sci-Fi"%string))
            Exemplos.um_livro
            (snd (atualizar_livro 1
                    (mkLivroUpdate Unset Unset Unset (Given (Some "Sci-Fi"%string)))
                    Exemplos.um_livro)).
Proof.
  apply (@C6_single_field_update Exemplos.um_livro 1 Exemplos.livro_dune).
  - reflexivity.
  - exact (SoGenero Exemplos.livro_dune (Some "Sci-Fi"%string)).
Defined.

(** C10: for an existing id, applying an update a second time returns
    the same record as the first time and leaves the store exactly as the
    first application left it. *)
Theorem C10_update_idempotent
  (s : store) (k : Z) (l : Livro) (u : LivroUpdate) :
  PyDict.get k (db_livros s) = Some l ->
  exists l' s1,
    atualizar_livro k u s = (Ok l', s1) /\
    atualizar_livro k u s1 = (Ok l', s1).
Proof.
  intros Hget.
  exists (atualizado u l),
         (mkStore (PyDict.set k (atualizado u l) (db_livros s)) (ultimo_id_livro s)).
  split.
  - now apply atualizar_livro_found.
  - rewrite atualizar_livro_found with (l := atualizado u l)
      by (simpl; apply PyDictFacts.get_set_same).
    simpl. now rewrite atualizado_idem, PyDictFacts.set_set.
Qed.

Lemma C10_update_idempotent_witness :
  exists l' s1,
    atualizar_livro 1 (mkLivroUpdate Unset (Given (Some "F. Herbert"%string))
                                     Unset (Given None))
                    Exemplos.um_livro_scifi = (Ok l', s1) /\
    atualizar_livro 1 (mkLivroUpdate Unset (Given (Some "F. Herbert"%string))
                                     Unset (Given None))
                    s1 = (Ok l', s1).
Proof.
  apply (@C10_update_idempotent Exemplos.um_livro_scifi 1 Exemplos.livro_dune_scifi).
  reflexivity.
Defined.

(* ================================================================== *)
(** ** Errors                                                          *)
(* ================================================================== *)

(** C5: a request that ends in an error (404 from get, update or delete
    of an absent id, or a validation error on a create or update body)
    leaves the store exactly as it found it. *)
Theorem C5_failed_request_keeps_store (r : request) (s : store) (e : erro) :
  fst (app r s) = Raise e -> snd (app r s) = s.
Proof.
  destruct r as [b|skip limit|k|k b|k]; simpl.
  - destruct (validate_LivroCreate b) as [livro|]; [|reflexivity].
    unfold bind. rewrite criar_livro_run. simpl. discriminate.
  - discriminate.
  - rewrite fst_bind_ret, snd_bind_ret.
    destruct (PyDict.get k (db_livros s)) as [l|] eqn:Hget.
    + rewrite obter_livro_found with (l := l) by exact Hget. reflexivity.
    + rewrite obter_livro_404 by exact Hget. reflexivity.
  - destruct (validate_LivroUpdate b) as [u|]; [|reflexivity].
    rewrite fst_bind_ret, snd_bind_ret.
    destruct (PyDict.get k (db_livros s)) as [l|] eqn:Hget.
    + rewrite atualizar_livro_found with (l := l) by exact Hget. discriminate.
    + rewrite atualizar_livro_404 by exact Hget. reflexivity.
  - rewrite fst_bind_ret, snd_bind_ret.
    destruct (PyDict.get k (db_livros s)) as [l|] eqn:Hget.
    + rewrite deletar_livro_found with (l := l) by exact Hget. discriminate.
    + rewrite deletar_livro_404 by exact Hget. reflexivity.
Qed.

Lemma C5_failed_request_witness :
  snd (app (PUT_livro 7 Exemplos.so_genero) Exemplos.um_livro) = Exemplos.um_livro.
Proof.
  apply (@C5_failed_request_keeps_store
           (PUT_livro 7 Exemplos.so_genero) Exemplos.um_livro (NotFound 7)).
  reflexivity.
Defined.

(** C7 as stated fails: a create whose title is the empty string is
    accepted and stored. *)
Lemma C7_empty_title_is_accepted :
  app (POST_livros Exemplos.sem_titulo) store_inicial =
    (Ok (RLivro Exemplos.livro_titulo_vazio),
     mkStore [(1, Exemplos.livro_titulo_vazio)] 1) /\
  ~ (forall (b : corpo) (s : store),
        c_titulo b = Value EmptyString \/ c_autor b = Value EmptyString ->
        app (POST_livros b) s = (Raise ValidationError, s)).
Proof.
  split; [reflexivity|].
  intros H.
  specialize (H Exemplos.sem_titulo store_inicial (or_introl eq_refl)).
  discriminate H.
Qed.

(** C7, amended: a create whose title (or author) is missing, [null] or
    not text fails with a validation error and stores nothing; a create
    whose title and author are text, of any length, and whose optional
    fields validate, succeeds and stores the record with that title and
    author. *)
Theorem C7_title_and_author_required (b : corpo) (s : store) :
  ((forall t, c_titulo b <> Value t) \/ (forall a, c_autor b <> Value a) ->
   app (POST_livros b) s = (Raise ValidationError, s)) /\
  (forall t a,
      c_titulo b = Value t -> c_autor b = Value a ->
      c_ano_publicacao b <> Invalid -> c_genero b <> Invalid ->
      exists l,
        fst (app (POST_livros b) s) = Ok (RLivro l) /\
        titulo l = Some t /\ autor l = Some a /\
        PyDict.get (id l) (db_livros (snd (app (POST_livros b) s))) = Some l).
Proof.
  split.
  - intros H. simpl. unfold validate_LivroCreate.
    destruct b as [ti au y g]; simpl in *.
    destruct H as [H|H].
    + destruct ti as [| |t|]; simpl; try reflexivity. now elim (H t).
    + destruct au as [| |a|]; simpl;
        try (destruct (required ti); reflexivity). now elim (H a).
  - intros t a Ht Ha Hy Hg. simpl. unfold validate_LivroCreate.
    rewrite Ht, Ha. simpl.
    destruct (c_ano_publicacao b) as [| |y|]; try congruence;
      destruct (c_genero b) as [| |g|]; try congruence;
      (eexists; split; [reflexivity|]; split; [reflexivity|];
       split; [reflexivity|]; simpl; apply PyDictFacts.get_set_same).
Qed.

Lemma C7_title_required_witness :
  app (POST_livros (mkCorpo Null (Value "Herbert"%string) Omitted Omitted))
      Exemplos.um_livro =
    (Raise ValidationError, Exemplos.um_livro).
Proof.
  apply (C7_title_and_author_required
           (mkCorpo Null (Value "Herbert"%string) Omitted Omitted)
           Exemplos.um_livro).
  left. intros t. discriminate.
Defined.

(* ================================================================== *)
(** ** Pagination and round trip                                       *)
(* ================================================================== *)

(** C8: for every store and all integers [skip] and [limit], listing
    with [limit <= 0] gives the same result as with [limit = 10], listing
    with [skip < 0] the same as with [skip = 0], and the request always
    succeeds with a list, leaving the store alone. *)
Theorem C8_list_coerces_skip_and_limit (s : store) (skip limit : Z) :
  (limit <= 0 -> listar_livros skip limit s = listar_livros skip 10 s) /\
  (skip < 0 -> listar_livros skip limit s = listar_livros 0 limit s) /\
  exists ls, app (GET_livros skip limit) s = (Ok (RLista ls), s).
Proof.
  split; [|split].
  - intros H. rewrite !listar_livros_run.
    apply Z.leb_le in H. now rewrite H.
  - intros H. rewrite !listar_livros_run.
    apply Z.ltb_lt in H. now rewrite H.
  - simpl. unfold bind. rewrite listar_livros_run. eexists. reflexivity.
Qed.

Lemma C8_list_coerces_witness :
  listar_livros (-3) (-1) Exemplos.um_livro = listar_livros (-3) 10 Exemplos.um_livro /\
  listar_livros (-3) (-1) Exemplos.um_livro = listar_livros 0 (-1) Exemplos.um_livro.
Proof.
  destruct (C8_list_coerces_skip_and_limit Exemplos.um_livro (-3) (-1))
    as [Hlimit [Hskip _]].
  split; [apply Hlimit | apply Hskip]; lia.
Defined.

(** C9: for every create body that validates, the create returns a
    record with the next id, and getting that id right after returns the
    same record; its title and author are the body's, and each optional
    field is the body's value, or absent when the body left it out (or
    gave [null]). *)
Theorem C9_create_then_get (b : corpo) (livro : LivroCreate) (s : store) :
  validate_LivroCreate b = Some livro ->
  exists l s',
    app (POST_livros b) s = (Ok (RLivro l), s') /\
    app (GET_livro (id l)) s' = (Ok (RLivro l), s') /\
    id l = ultimo_id_livro s + 1 /\
    c_titulo b = Value (lc_titulo livro) /\ titulo l = Some (lc_titulo livro) /\
    c_autor b = Value (lc_autor livro) /\ autor l = Some (lc_autor livro) /\
    ano_publicacao l = raw_valor (c_ano_publicacao b) /\
    genero l = raw_valor (c_genero b).
Proof.
  intros Hval. simpl. rewrite Hval. unfold bind at 1.
  rewrite criar_livro_run. cbv zeta.
  do 2 eexists. split; [reflexivity|]. simpl.
  split.
  - unfold bind.
    rewrite obter_livro_found with (l := novo_Livro (ultimo_id_livro s + 1) livro);
      [reflexivity|]. simpl. apply PyDictFacts.get_set_same.
  - unfold validate_LivroCreate in Hval.
    destruct b as [[| |t|] [| |a|] [| |y|] [| |g|]]; simpl in Hval;
      try discriminate Hval; injection Hval as <-; simpl; repeat split.
Qed.

Lemma C9_create_then_get_witness :
  exists l s',
    app (POST_livros Exemplos.foundation) Exemplos.um_livro = (Ok (RLivro l), s') /\
    app (GET_livro (id l)) s' = (Ok (RLivro l), s') /\
    id l = 2 /\
    Value "Foundation"%string = Value "Foundation"%string /\
    titulo l = Some "Foundation"%string /\
    Value "Asimov"%string = Value "Asimov"%string /\
    autor l = Some "Asimov"%string /\
    ano_publicacao l = None /\
    genero l = None.
Proof.
  exact (@C9_create_then_get Exemplos.foundation
           (mkLivroCreate "Foundation" "Asimov" None None)
           Exemplos.um_livro eq_refl).
Defined.

(* ================================================================== *)
(** ** A worked session                                                *)
(* ================================================================== *)

(** Two creates, a page of the list, a one-field update, a delete and a
    get of the deleted id. *)
Example sessao_dune_foundation :
  serve [POST_livros Exemplos.dune;
         POST_livros Exemplos.foundation;
         GET_livros 1 5;
         PUT_livro 1 Exemplos.so_genero;
         DELETE_livro 1;
         GET_livro 1] store_inicial =
  let foundation := mkLivro 2 (Some "Foundation"%string) (Some "Asimov"%string)
                            None None in
  ([(POST_livros Exemplos.dune, Ok (RLivro Exemplos.livro_dune));
    (POST_livros Exemplos.foundation, Ok (RLivro foundation));
    (GET_livros 1 5, Ok (RLista [foundation]));
    (PUT_livro 1 Exemplos.so_genero,
     Ok (RLivro (mkLivro 1 (Some "Dune"%string) (Some "Herbert"%string) None
                         (Some "Sci-Fi"%string))));
    (DELETE_livro 1, Ok (RMensagem 1));
    (GET_livro 1, Raise (NotFound 1))],
   mkStore [(2, foundation)] 2).
Proof. reflexivity. Qed.

(* ================================================================== *)
(** ** More about the dict                                             *)
(* ================================================================== *)

Section DictMais.
Variable V : Type.
Implicit Types (d : PyDict.t V) (k : Z) (v : V).

Lemma get_del_other k k' d :
  k' <> k -> PyDict.get k' (PyDict.del k d) = PyDict.get k' d.
Proof.
intros Hne. induction d as [|[k0 v0] d IH]; simpl; auto.
destruct (k0 =? k) eqn:E; simpl.
- apply Z.eqb_eq in E. subst k0.
  destruct (k =? k') eqn:E'; auto. apply Z.eqb_eq in E'. congruence.
- now rewrite IH.
Qed.

(** Keys of a dict are unique, so a deleted key is gone. *)
Lemma get_del_same k d :
  StronglySorted Z.lt (PyDict.keys d) -> PyDict.get k (PyDict.del k d) = None.
Proof.
induction d as [|[k0 v0] d IH]; simpl; auto.
intros Hs. inversion Hs as [|? ? Hs' Hf]; subst.
destruct (k0 =? k) eqn:E; simpl.
- apply Z.eqb_eq in E. subst k0.
  apply PyDictFacts.get_none_notin. intros Hin.
  rewrite Forall_forall in Hf. specialize (Hf _ Hin). lia.
- rewrite E. auto.
Qed.

(** Assigning the value a key already has changes nothing. *)
Lemma set_same_value k v d :
  PyDict.get k d = Some v -> PyDict.set k v d = d.
Proof.
induction d as [|[k0 v0] d IH]; simpl; [discriminate|].
destruct (k0 =? k) eqn:E.
- now intros [= ->].
- intros H. now rewrite IH.
Qed.

Lemma del_snoc k v d :
  PyDict.get k d = None -> PyDict.del k (d ++ [(k, v)]) = d.
Proof.
induction d as [|[k0 v0] d IH]; simpl.
- now rewrite Z.eqb_refl.
- destruct (k0 =? k) eqn:E; [discriminate|].
  intros H. now rewrite IH.
Qed.

Lemma length_del k v d :
  PyDict.get k d = Some v -> length d = S (length (PyDict.del k d)).
Proof.
induction d as [|[k0 v0] d IH]; simpl; [discriminate|].
destruct (k0 =? k) eqn:E; simpl; auto.
Qed.
End DictMais.

Lemma values_del_filter (k : Z) (d : PyDict.t Livro) :
  StronglySorted Z.lt (PyDict.keys d) ->
  Forall (fun kv => id (snd kv) = fst kv) d ->
  PyDict.values (PyDict.del k d) =
    filter (fun l => negb (id l =? k)) (PyDict.values d).
Proof.
induction d as [|[k0 l0] d IH]; simpl; auto.
intros Hs Hf.
inversion Hs as [|? ? Hs' Hk]; inversion Hf as [|? ? Hkl Hf']; subst.
simpl in Hkl. rewrite Hkl.
destruct (k0 =? k) eqn:E; simpl.
- apply Z.eqb_eq in E. subst k0.
  symmetry. apply forallb_filter_id. apply forallb_forall.
  intros l Hin. unfold PyDict.values in Hin. apply in_map_iff in Hin.
  destruct Hin as [[k1 l1] [<- Hin]]. simpl.
  rewrite Forall_forall in *. pose proof (Hf' _ Hin) as H1. simpl in H1.
  assert (id l0 < k1) by (apply Hk; apply in_map_iff; exists (k1, l1); auto).
  rewrite H1. apply negb_true_iff, Z.eqb_neq. lia.
- now rewrite IH.
Qed.

Lemma ids_set_present (k : Z) (l l' : Livro) (d : PyDict.t Livro) :
  PyDict.get k d = Some l -> id l' = id l ->
  map id (PyDict.values (PyDict.set k l' d)) = map id (PyDict.values d).
Proof.
intros Hget Hid. induction d as [|[k0 l0] d IH]; simpl in *; [discriminate|].
destruct (k0 =? k) eqn:E; simpl.
- injection Hget as ->. now rewrite Hid.
- now rewrite IH.
Qed.

Lemma in_lista_get (s : store) (l : Livro) :
  inv s -> In l (livros_lista s) -> PyDict.get (id l) (db_livros s) = Some l.
Proof.
intros Hinv Hin. pose proof (inv_ids Hinv) as Hid. destruct Hinv as [Hs _].
unfold livros_lista, PyDict.values in Hin. apply in_map_iff in Hin.
destruct Hin as [[k' l'] [Hl Hin]]. simpl in Hl. subst l'.
rewrite Forall_forall in Hid. pose proof (Hid _ Hin) as Hk. simpl in Hk.
rewrite Hk. now apply PyDictFacts.in_sorted_get.
Qed.

(** Discharges an invariant on a store written out in full. *)
Ltac concreto :=
  repeat first [ split | constructor | reflexivity | (simpl; lia) ].

(* ================================================================== *)
(** ** Deleting                                                        *)
(* ================================================================== *)

(** X1: in a store that satisfies the invariant (as every store reached
    from the initial one does), deleting a stored id succeeds with the
    confirmation for that id, and afterwards get, update and delete of
    that id all answer 404, leaving the store alone. *)
Theorem deleted_id_is_gone (s : store) (k : Z) (l : Livro) (u : LivroUpdate) :
  inv s ->
  PyDict.get k (db_livros s) = Some l ->
  exists s',
    app (DELETE_livro k) s = (Ok (RMensagem k), s') /\
    obter_livro k s' = (Raise (NotFound k), s') /\
    atualizar_livro k u s' = (Raise (NotFound k), s') /\
    deletar_livro k s' = (Raise (NotFound k), s').
Proof.
intros [Hs _] Hget.
exists (mkStore (PyDict.del k (db_livros s)) (ultimo_id_livro s)).
assert (Hnone : PyDict.get k (PyDict.del k (db_livros s)) = None)
  by now apply get_del_same.
split; [|split; [|split]].
- simpl. unfold bind.
  now rewrite deletar_livro_found with (l := l) by exact Hget.
- now apply obter_livro_404.
- now apply atualizar_livro_404.
- now apply deletar_livro_404.
Qed.

Lemma deleted_id_is_gone_witness :
  exists s',
    app (DELETE_livro 1) Exemplos.dois_livros = (Ok (RMensagem 1), s') /\
    obter_livro 1 s' = (Raise (NotFound 1), s') /\
    atualizar_livro 1 (mkLivroUpdate Unset Unset Unset (Given None)) s' =
      (Raise (NotFound 1), s') /\
    deletar_livro 1 s' = (Raise (NotFound 1), s').
Proof.
apply (@deleted_id_is_gone Exemplos.dois_livros 1 Exemplos.livro_dune).
- concreto.
- reflexivity.
Defined.

(** X2: under the invariant, deleting a stored id removes exactly the
    record with that id from the listing and keeps the others in their
    order; every other id still resolves to the same record, the listing
    is one shorter, and the counter is not touched. *)
Theorem delete_removes_only_that_record (s : store) (k : Z) (l : Livro) :
  inv s ->
  PyDict.get k (db_livros s) = Some l ->
  let s' := snd (deletar_livro k s) in
  livros_lista s' = filter (fun x => negb (id x =? k)) (livros_lista s) /\
  (forall k', k' <> k ->
     PyDict.get k' (db_livros s') = PyDict.get k' (db_livros s)) /\
  length (livros_lista s) = S (length (livros_lista s')) /\
  ultimo_id_livro s' = ultimo_id_livro s.
Proof.
intros Hinv Hget s'. subst s'.
rewrite deletar_livro_found with (l := l) by exact Hget. simpl.
pose proof (inv_ids Hinv) as Hid. destruct Hinv as [Hs _].
unfold livros_lista. simpl. split; [|split; [|split]].
- now apply values_del_filter.
- intros k' Hne. now apply get_del_other.
- unfold PyDict.values. rewrite !length_map.
  now apply length_del with (v := l).
- reflexivity.
Qed.

Lemma delete_removes_only_that_record_witness :
  let s' := snd (deletar_livro 1 Exemplos.dois_livros) in
  livros_lista s' =
    filter (fun x => negb (id x =? 1)) (livros_lista Exemplos.dois_livros) /\
  (forall k', k' <> 1 ->
     PyDict.get k' (db_livros s') = PyDict.get k' (db_livros Exemplos.dois_livros)) /\
  length (livros_lista Exemplos.dois_livros) = S (length (livros_lista s')) /\
  ultimo_id_livro s' = ultimo_id_livro Exemplos.dois_livros.
Proof.
apply (@delete_removes_only_that_record Exemplos.dois_livros 1 Exemplos.livro_dune).
- concreto.
- reflexivity.
Defined.

(* ================================================================== *)
(** ** Creating                                                        *)
(* ================================================================== *)

(** X3: under the invariant, a create puts the new record at the end
    of the listing and leaves every record already stored as it was. *)
Theorem create_appends (s : store) (livro : LivroCreate) :
  inv s ->
  exists novo s',
    criar_livro livro s = (Ok novo, s') /\
    livros_lista s' = livros_lista s ++ [novo] /\
    forall k l, PyDict.get k (db_livros s) = Some l ->
                PyDict.get k (db_livros s') = Some l.
Proof.
intros Hinv. pose proof (inv_fresh Hinv) as Hfresh.
rewrite criar_livro_run. cbv zeta.
do 2 eexists. split; [reflexivity|]. simpl. split.
- unfold livros_lista. simpl.
  rewrite PyDictFacts.set_absent by exact Hfresh.
  unfold PyDict.values. now rewrite map_app.
- intros k l Hget. rewrite PyDictFacts.get_set_other; auto.
  intros Heq. rewrite Heq in Hfresh. congruence.
Qed.

Lemma create_appends_witness :
  exists novo s',
    criar_livro (mkLivroCreate "Foundation" "Asimov" None None) Exemplos.um_livro =
      (Ok novo, s') /\
    livros_lista s' = livros_lista Exemplos.um_livro ++ [novo] /\
    forall k l, PyDict.get k (db_livros Exemplos.um_livro) = Some l ->
                PyDict.get k (db_livros s') = Some l.
Proof.
apply (@create_appends Exemplos.um_livro).
concreto.
Defined.

(** X4: under the invariant, creating a record and deleting it again
    gives back the dict as it was, but not the counter: the id stays
    used. *)
Theorem create_then_delete (s : store) (livro : LivroCreate) :
  inv s ->
  let n := ultimo_id_livro s + 1 in
  deletar_livro n (snd (criar_livro livro s)) =
    (Ok n, mkStore (db_livros s) n).
Proof.
intros Hinv n. pose proof (inv_fresh Hinv) as Hfresh. fold n in Hfresh.
rewrite criar_livro_run. cbv zeta. fold n. simpl snd.
rewrite deletar_livro_found with (l := novo_Livro n livro)
  by (simpl; apply PyDictFacts.get_set_same).
simpl. rewrite PyDictFacts.set_absent by exact Hfresh.
now rewrite del_snoc by exact Hfresh.
Qed.

Lemma create_then_delete_witness :
  deletar_livro 2 (snd (criar_livro (mkLivroCreate "Foundation" "Asimov" None None)
                                    Exemplos.um_livro)) =
    (Ok 2, mkStore (db_livros Exemplos.um_livro) 2).
Proof.
apply (@create_then_delete Exemplos.um_livro
         (mkLivroCreate "Foundation" "Asimov" None None)).
concreto.
Defined.

(* ================================================================== *)
(** ** Updating                                                        *)
(* ================================================================== *)

(** X5: for a stored id, any update (whatever fields it gives) returns
    a record with the same id, which a get of that id then returns; in
    the store only that record changes, and the listing keeps its length
    and the order of its ids. *)
Theorem update_changes_only_that_record
  (s : store) (k : Z) (l : Livro) (u : LivroUpdate) :
  PyDict.get k (db_livros s) = Some l ->
  exists l' s',
    atualizar_livro k u s = (Ok l', s') /\
    id l' = id l /\
    so_altera k l' s s' /\
    map id (livros_lista s') = map id (livros_lista s) /\
    obter_livro k s' = (Ok l', s').
Proof.
intros Hget.
exists (atualizado u l),
       (mkStore (PyDict.set k (atualizado u l) (db_livros s)) (ultimo_id_livro s)).
split; [now apply atualizar_livro_found|].
split; [apply atualizado_id|].
split; [now apply so_altera_set with (l := l)|].
split.
- unfold livros_lista. simpl.
  apply ids_set_present with (l := l); auto. apply atualizado_id.
- apply obter_livro_found. simpl. apply PyDictFacts.get_set_same.
Qed.

Lemma update_changes_only_that_record_witness :
  exists l' s',
    atualizar_livro 2 (mkLivroUpdate (Given (Some "Foundation and Empire"%string))
                                     Unset (Given (Some 1952)) Unset)
                    Exemplos.dois_livros = (Ok l', s') /\
    id l' = 2 /\
    so_altera 2 l' Exemplos.dois_livros s' /\
    map id (livros_lista s') = map id (livros_lista Exemplos.dois_livros) /\
    obter_livro 2 s' = (Ok l', s').
Proof.
apply (@update_changes_only_that_record
         Exemplos.dois_livros 2 Exemplos.livro_foundation).
reflexivity.
Defined.

(** X6: for a stored id, an update with the empty body [{}] returns the
    stored record and leaves the whole store exactly as it was. *)
Theorem empty_update_is_noop (s : store) (k : Z) (l : Livro) :
  PyDict.get k (db_livros s) = Some l ->
  app (PUT_livro k corpo_vazio) s = (Ok (RLivro l), s).
Proof.
intros Hget. simpl. unfold bind.
rewrite atualizar_livro_found with (l := l) by exact Hget.
unfold atualizado. simpl.
rewrite set_same_value by exact Hget. now destruct s.
Qed.

Lemma empty_update_is_noop_witness :
  app (PUT_livro 2 corpo_vazio) Exemplos.dois_livros =
    (Ok (RLivro Exemplos.livro_foundation), Exemplos.dois_livros).
Proof.
apply (@empty_update_is_noop Exemplos.dois_livros 2 Exemplos.livro_foundation).
reflexivity.
Defined.

Lemma atualizado_merge (u1 u2 : LivroUpdate) (l : Livro) :
  atualizado u2 (atualizado u1 l) = atualizado (merge_update u1 u2) l.
Proof.
rewrite !atualizado_campos.
destruct u1 as [t1 a1 y1 g1], u2 as [[|t2] [|a2] [|y2] [|g2]]; reflexivity.
Qed.

(** X7: for a stored id, two updates one after the other return the
    same record and leave the same store as the single update whose
    body takes each field from the second when it gives it and from the
    first otherwise. *)
Theorem updates_compose
  (s : store) (k : Z) (l : Livro) (u1 u2 : LivroUpdate) :
  PyDict.get k (db_livros s) = Some l ->
  atualizar_livro k u2 (snd (atualizar_livro k u1 s)) =
    atualizar_livro k (merge_update u1 u2) s.
Proof.
intros Hget.
rewrite atualizar_livro_found with (u := u1) (l := l) by exact Hget.
simpl snd.
rewrite atualizar_livro_found with (l := atualizado u1 l)
  by (simpl; apply PyDictFacts.get_set_same).
rewrite atualizar_livro_found with (u := merge_update u1 u2) (l := l)
  by exact Hget.
simpl. now rewrite atualizado_merge, PyDictFacts.set_set.
Qed.

Lemma updates_compose_witness :
  atualizar_livro 1 (mkLivroUpdate Unset Unset (Given (Some 1965)) (Given None))
    (snd (atualizar_livro 1
            (mkLivroUpdate Unset (Given (Some "F. Herbert"%string)) Unset
                           (Given (Some "Sci-Fi"%string)))
            Exemplos.dois_livros)) =
  atualizar_livro 1
    (merge_update
       (mkLivroUpdate Unset (Given (Some "F. Herbert"%string)) Unset
                      (Given (Some "Sci-Fi"%string)))
       (mkLivroUpdate Unset Unset (Given (Some 1965)) (Given None)))
    Exemplos.dois_livros.
Proof.
apply (@updates_compose Exemplos.dois_livros 1 Exemplos.livro_dune).
reflexivity.
Defined.

(** X8: a body that validates for a create also validates for an
    update, and sending it as an update of the record it has just created
    returns that same record and changes nothing in the store. *)
Theorem put_of_the_creating_body_is_noop
  (b : corpo) (livro : LivroCreate) (s : store) :
  validate_LivroCreate b = Some livro ->
  validate_LivroUpdate b <> None /\
  exists l s',
    app (POST_livros b) s = (Ok (RLivro l), s') /\
    app (PUT_livro (id l) b) s' = (Ok (RLivro l), s').
Proof.
intros Hval.
assert (Hu : exists u, validate_LivroUpdate b = Some u /\
                       forall n, atualizado u (novo_Livro n livro) = novo_Livro n livro).
{ unfold validate_LivroCreate in Hval. unfold validate_LivroUpdate.
  destruct b as [[| |t|] [| |a|] [| |y|] [| |g|]]; simpl in *;
    try discriminate Hval; injection Hval as <-;
    (eexists; split; [reflexivity|]; intros n; reflexivity). }
destruct Hu as [u [Hu Hsame]].
split; [rewrite Hu; discriminate|].
simpl app at 1. rewrite Hval. unfold bind at 1.
rewrite criar_livro_run. cbv zeta.
do 2 eexists. split; [reflexivity|].
simpl. rewrite Hu. unfold bind.
rewrite atualizar_livro_found
  with (l := novo_Livro (ultimo_id_livro s + 1) livro)
  by (simpl; apply PyDictFacts.get_set_same).
simpl. now rewrite Hsame, PyDictFacts.set_set.
Qed.

Lemma put_of_the_creating_body_witness :
  validate_LivroUpdate Exemplos.dune_scifi <> None /\
  exists l s',
    app (POST_livros Exemplos.dune_scifi) store_inicial = (Ok (RLivro l), s') /\
    app (PUT_livro (id l) Exemplos.dune_scifi) s' = (Ok (RLivro l), s').
Proof.
apply (@put_of_the_creating_body_is_noop Exemplos.dune_scifi
         (mkLivroCreate "Dune" "Herbert" (Some 1965) (Some "Sci-Fi"%string))
         store_inicial).
reflexivity.
Defined.

(* ================================================================== *)
(** ** The ids in a reachable store                                    *)
(* ================================================================== *)

Lemma ids_positivos_inicial : ids_positivos store_inicial.
Proof. split; [simpl; lia | constructor]. Qed.

Lemma ids_positivos_app (r : request) (s : store) :
  ids_positivos s -> ids_positivos (snd (app r s)).
Proof.
intros [Hu Hf]. destruct r as [b|skip limit|k|k b|k]; simpl.
- destruct (validate_LivroCreate b) as [livro|]; [|now split].
  rewrite snd_bind_ret, criar_livro_run. cbv zeta. split; simpl; [lia|].
  rewrite Forall_forall in *. intros kv Hin.
  apply PyDictFacts.in_set in Hin. destruct Hin as [->|Hin]; auto.
  simpl. lia.
- now split.
- rewrite snd_bind_ret.
  destruct (PyDict.get k (db_livros s)) as [l|] eqn:Hget.
  + now rewrite obter_livro_found with (l := l) by exact Hget.
  + now rewrite obter_livro_404 by exact Hget.
- destruct (validate_LivroUpdate b) as [u|]; [|now split].
  rewrite snd_bind_ret.
  destruct (PyDict.get k (db_livros s)) as [l|] eqn:Hget.
  + rewrite atualizar_livro_found with (l := l) by exact Hget.
    split; simpl; auto.
    rewrite Forall_forall in *. intros kv Hin.
    apply PyDictFacts.in_set in Hin. destruct Hin as [->|Hin]; auto.
    apply PyDictFacts.get_some_in in Hget. apply (Hf _ Hget).
  + rewrite atualizar_livro_404 by exact Hget. now split.
- rewrite snd_bind_ret.
  destruct (PyDict.get k (db_livros s)) as [l|] eqn:Hget.
  + rewrite deletar_livro_found with (l := l) by exact Hget.
    split; simpl; auto.
    rewrite Forall_forall in *. intros kv Hin.
    apply Hf. eapply PyDictFacts.in_del; eauto.
  + rewrite deletar_livro_404 by exact Hget. now split.
Qed.

Lemma ids_positivos_serve (rs : list request) :
  forall s, ids_positivos s -> ids_positivos (snd (serve rs s)).
Proof.
induction rs as [|r rs IH]; intros s Hs; simpl; auto.
pose proof (ids_positivos_app r Hs) as Hs'.
destruct (app r s) as [x s']. specialize (IH s').
destruct (serve rs s') as [tr s'']. simpl in *. auto.
Qed.

Lemma sorted_length_bound (l : list Z) :
  StronglySorted Z.lt l ->
  forall a b, a <= b + 1 -> Forall (fun x => a <= x <= b) l ->
              Z.of_nat (length l) <= b - a + 1.
Proof.
intros Hs. induction Hs as [|x l' Hs IH Hx]; intros a b Hab Hf.
- simpl. lia.
- inversion Hf as [|? ? Hxb Hf']; subst.
  assert (Hl : Z.of_nat (length l') <= b - (x + 1) + 1).
  { apply IH; [lia|]. rewrite Forall_forall in *. intros y Hy.
    specialize (Hx y Hy). specialize (Hf' y Hy). lia. }
  simpl length. lia.
Qed.

(** X9: after any session from the freshly loaded module the counter is
    not negative, every stored record sits under its own id, which lies
    between 1 and the counter, there are at most as many records as the
    counter says, and a get of an id below 1 or above the counter
    answers 404. *)
Theorem stored_ids_within_counter (rs : list request) :
  let s := snd (serve rs store_inicial) in
  0 <= ultimo_id_livro s /\
  (forall k l, PyDict.get k (db_livros s) = Some l ->
               1 <= k <= ultimo_id_livro s /\ id l = k) /\
  Z.of_nat (length (livros_lista s)) <= ultimo_id_livro s /\
  (forall k, k < 1 \/ ultimo_id_livro s < k ->
             obter_livro k s = (Raise (NotFound k), s)).
Proof.
intros s.
assert (Hinv : inv s) by (apply inv_serve, inv_inicial).
assert (Hpos : ids_positivos s) by (apply ids_positivos_serve, ids_positivos_inicial).
destruct Hinv as [Hs Hf]. destruct Hpos as [Hu Hp].
rewrite Forall_forall in Hf, Hp.
assert (Hrec : forall k l, PyDict.get k (db_livros s) = Some l ->
                           1 <= k <= ultimo_id_livro s /\ id l = k).
{ intros k l Hget. apply PyDictFacts.get_some_in in Hget.
  destruct (Hf _ Hget) as [Hid Hle]. specialize (Hp _ Hget). simpl in *. lia. }
split; [exact Hu|]. split; [exact Hrec|]. split.
- unfold livros_lista, PyDict.values. rewrite length_map.
  replace (length (db_livros s)) with (length (PyDict.keys (db_livros s)))
    by (unfold PyDict.keys; apply length_map).
  pose proof (@sorted_length_bound _ Hs 1 (ultimo_id_livro s)) as Hb.
  assert (HF : Forall (fun x => 1 <= x <= ultimo_id_livro s)
                      (PyDict.keys (db_livros s))).
  { rewrite Forall_forall. intros x Hx. unfold PyDict.keys in Hx.
    apply in_map_iff in Hx. destruct Hx as [kv [<- Hin]].
    destruct (Hf _ Hin). specialize (Hp _ Hin). simpl in *. lia. }
  specialize (Hb ltac:(lia) HF). lia.
- intros k Hk. apply obter_livro_404.
  destruct (PyDict.get k (db_livros s)) as [l|] eqn:Hget; auto.
  destruct (Hrec _ _ Hget). lia.
Qed.

Lemma stored_ids_within_counter_witness :
  obter_livro 0 (snd (serve [POST_livros Exemplos.dune; DELETE_livro 1] store_inicial)) =
    (Raise (NotFound 0),
     snd (serve [POST_livros Exemplos.dune; DELETE_livro 1] store_inicial)) /\
  (1 <= 1 <= ultimo_id_livro
               (snd (serve [POST_livros Exemplos.dune; POST_livros Exemplos.foundation]
                           store_inicial)) /\
   id Exemplos.livro_dune = 1).
Proof.
split.
- apply (stored_ids_within_counter [POST_livros Exemplos.dune; DELETE_livro 1]).
  left. lia.
- destruct (stored_ids_within_counter
              [POST_livros Exemplos.dune; POST_livros Exemplos.foundation])
    as [_ [Hrec _]].
  apply (Hrec 1 Exemplos.livro_dune). reflexivity.
Defined.

(** X10: after any session from the freshly loaded module the counter
    equals the number of creates that succeeded, however many records were
    deleted in between. *)
Theorem counter_counts_creates (rs : list request) :
  ultimo_id_livro (snd (serve rs store_inicial)) =
    Z.of_nat (length (ids_criados (fst (serve rs store_inicial)))).
Proof.
destruct (ids_serve rs store_inicial) as [n [Hids Hult]].
rewrite Hids, Hult, Zseq_length. simpl. lia.
Qed.

(* ================================================================== *)
(** ** More about listing                                              *)
(* ================================================================== *)

Lemma firstn_add {A} (a b : nat) :
  forall l : list A, firstn (a + b) l = firstn a l ++ firstn b (skipn a l).
Proof.
induction a as [|a IH]; intros l; simpl; auto.
destruct l as [|x l]; simpl.
- now rewrite firstn_nil.
- now rewrite IH.
Qed.

Lemma in_firstn {A} (n : nat) (l : list A) (x : A) : In x (firstn n l) -> In x l.
Proof.
intros H. rewrite <- (firstn_skipn n l). apply in_or_app. now left.
Qed.

Lemma in_skipn {A} (n : nat) (l : list A) (x : A) : In x (skipn n l) -> In x l.
Proof.
intros H. rewrite <- (firstn_skipn n l). apply in_or_app. now right.
Qed.

(** X11: the list endpoint returns exactly
    [min(limit', max(0, n - skip'))] records, where [n] is the number of
    stored records, [skip'] is [skip] with negatives read as 0 and
    [limit'] is [limit] with non-positives read as 10: never more than
    [limit'], and none once [skip'] reaches [n]. *)
Theorem list_length (s : store) (skip limit : Z) :
  exists ls,
    listar_livros skip limit s = (Ok ls, s) /\
    Z.of_nat (length ls) =
      Z.min (limit_efetivo limit)
            (Z.max 0 (Z.of_nat (length (livros_lista s)) - skip_efetivo skip)).
Proof.
eexists. split; [apply listar_livros_window|].
rewrite length_firstn, length_skipn.
unfold limit_efetivo, skip_efetivo.
destruct (limit <=? 0) eqn:El; destruct (skip <? 0) eqn:Es;
  try apply Z.leb_le in El; try apply Z.leb_gt in El;
  try apply Z.ltb_lt in Es; try apply Z.ltb_ge in Es; lia.
Qed.

(** X12: consecutive pages join up: for [skip >= 0] and positive
    [l1], [l2], the page at [skip] of size [l1] followed by the page at
    [skip + l1] of size [l2] is the page at [skip] of size [l1 + l2]. *)
Theorem list_pages_concatenate (s : store) (skip l1 l2 : Z) :
  0 <= skip -> 0 < l1 -> 0 < l2 ->
  exists p1 p2,
    listar_livros skip l1 s = (Ok p1, s) /\
    listar_livros (skip + l1) l2 s = (Ok p2, s) /\
    listar_livros skip (l1 + l2) s = (Ok (p1 ++ p2), s).
Proof.
intros Hs H1 H2.
do 2 eexists. split; [apply listar_livros_window|].
split; [apply listar_livros_window|].
rewrite listar_livros_window.
assert (E1 : (l1 <=? 0) = false) by (apply Z.leb_gt; lia).
assert (E2 : (l2 <=? 0) = false) by (apply Z.leb_gt; lia).
assert (E3 : (l1 + l2 <=? 0) = false) by (apply Z.leb_gt; lia).
rewrite E1, E2, E3.
rewrite Z2Nat.inj_add by lia. rewrite firstn_add.
rewrite skipn_skipn.
replace (Z.to_nat l1 + Z.to_nat skip)%nat with (Z.to_nat (skip + l1)) by lia.
reflexivity.
Qed.

Lemma list_pages_concatenate_witness :
  exists p1 p2,
    listar_livros 0 1 Exemplos.dois_livros = (Ok p1, Exemplos.dois_livros) /\
    listar_livros (0 + 1) 5 Exemplos.dois_livros = (Ok p2, Exemplos.dois_livros) /\
    listar_livros 0 (1 + 5) Exemplos.dois_livros =
      (Ok (p1 ++ p2), Exemplos.dois_livros).
Proof.
apply (@list_pages_concatenate Exemplos.dois_livros 0 1 5); lia.
Defined.

(** X13: under the invariant, every record the list endpoint returns is
    a stored one: a get of its id returns that very record. *)
Theorem listed_records_are_gettable
  (s : store) (skip limit : Z) (ls : list Livro) (l : Livro) :
  inv s ->
  fst (listar_livros skip limit s) = Ok ls ->
  In l ls ->
  obter_livro (id l) s = (Ok l, s).
Proof.
intros Hinv Hls Hin.
rewrite listar_livros_window in Hls. simpl in Hls. injection Hls as <-.
apply in_firstn, in_skipn in Hin.
apply obter_livro_found. now apply in_lista_get.
Qed.

Lemma listed_records_are_gettable_witness :
  obter_livro (id Exemplos.livro_foundation) Exemplos.dois_livros =
    (Ok Exemplos.livro_foundation, Exemplos.dois_livros).
Proof.
apply (@listed_records_are_gettable Exemplos.dois_livros 1 5
         [Exemplos.livro_foundation]).
- concreto.
- reflexivity.
- left. reflexivity.
Defined.

(* ================================================================== *)
(** ** Reads, 404s and the record count                                *)
(* ================================================================== *)

(** X14: a session made only of list and get requests, successful or
    not, leaves the store exactly as it was; so does the root route. *)
Theorem reads_never_write (rs : list request) (s : store) :
  forallb so_leitura rs = true ->
  snd (serve rs s) = s /\ snd (read_root s) = s.
Proof.
intros Hrs. split; [|reflexivity].
revert s. induction rs as [|r rs IH]; intros s; simpl; auto.
simpl in Hrs. apply andb_true_iff in Hrs. destruct Hrs as [Hr Hrs].
assert (Hsame : snd (app r s) = s).
{ destruct r as [b|skip limit|k|k b|k]; try discriminate Hr; simpl.
  - reflexivity.
  - rewrite snd_bind_ret.
    destruct (PyDict.get k (db_livros s)) as [l|] eqn:Hget.
    + now rewrite obter_livro_found with (l := l) by exact Hget.
    + now rewrite obter_livro_404 by exact Hget. }
destruct (app r s) as [x s']. simpl in Hsame. subst s'.
specialize (IH Hrs s). destruct (serve rs s) as [tr s'']. simpl in *. exact IH.
Qed.

Lemma reads_never_write_witness :
  snd (serve [GET_livros (-1) 0; GET_livro 1; GET_livro 9] Exemplos.dois_livros) =
    Exemplos.dois_livros /\
  snd (read_root Exemplos.dois_livros) = Exemplos.dois_livros.
Proof.
apply (@reads_never_write [GET_livros (-1) 0; GET_livro 1; GET_livro 9]
         Exemplos.dois_livros).
reflexivity.
Defined.

(** X15: get, update and delete answer 404 for the requested id exactly
    when no record is stored under it; the store is then left alone. *)
Theorem not_found_iff_absent (s : store) (k : Z) (u : LivroUpdate) :
  (obter_livro k s = (Raise (NotFound k), s) <->
   PyDict.get k (db_livros s) = None) /\
  (atualizar_livro k u s = (Raise (NotFound k), s) <->
   PyDict.get k (db_livros s) = None) /\
  (deletar_livro k s = (Raise (NotFound k), s) <->
   PyDict.get k (db_livros s) = None).
Proof.
destruct (PyDict.get k (db_livros s)) as [l|] eqn:Hget.
- rewrite obter_livro_found with (l := l) by exact Hget.
  rewrite atualizar_livro_found with (l := l) by exact Hget.
  rewrite deletar_livro_found with (l := l) by exact Hget.
  repeat split; intros H; discriminate H.
- rewrite obter_livro_404 by exact Hget.
  rewrite atualizar_livro_404 by exact Hget.
  rewrite deletar_livro_404 by exact Hget.
  repeat split; auto.
Qed.

Lemma not_found_iff_absent_witness :
  obter_livro 9 Exemplos.dois_livros = (Raise (NotFound 9), Exemplos.dois_livros) /\
  deletar_livro 9 Exemplos.dois_livros = (Raise (NotFound 9), Exemplos.dois_livros).
Proof.
destruct (not_found_iff_absent Exemplos.dois_livros 9
            (mkLivroUpdate Unset Unset Unset Unset)) as [Hget [_ Hdel]].
split; [apply Hget | apply Hdel]; reflexivity.
Defined.

Lemma length_set_present (k : Z) (l l' : Livro) (d : PyDict.t Livro) :
  PyDict.get k d = Some l -> length (PyDict.set k l' d) = length d.
Proof.
intros Hget.
rewrite <- (length_map fst (PyDict.set k l' d)), <- (length_map fst d).
change (length (PyDict.keys (PyDict.set k l' d)) = length (PyDict.keys d)).
now rewrite PyDictFacts.keys_set_present with (w := l).
Qed.

Lemma app_count (r : request) (s : store) :
  inv s ->
  (length (livros_lista (snd (app r s))) + n_removidos [(r, fst (app r s))] =
   length (livros_lista s) + length (ids_criados [(r, fst (app r s))]))%nat.
Proof.
intros Hinv. unfold livros_lista, PyDict.values. rewrite !length_map.
destruct r as [b|skip limit|k|k b|k]; cbn [app].
- destruct (validate_LivroCreate b) as [livro|]; [|simpl; lia].
  rewrite fst_bind_ret, snd_bind_ret, criar_livro_run. cbv zeta. simpl.
  rewrite PyDictFacts.set_absent by (apply inv_fresh; exact Hinv).
  rewrite length_app. simpl. lia.
- rewrite fst_bind_ret, snd_bind_ret, listar_livros_run. simpl. lia.
- rewrite fst_bind_ret, snd_bind_ret.
  destruct (PyDict.get k (db_livros s)) as [l|] eqn:Hget.
  + rewrite obter_livro_found with (l := l) by exact Hget. simpl. lia.
  + rewrite obter_livro_404 by exact Hget. simpl. lia.
- destruct (validate_LivroUpdate b) as [u|]; [|simpl; lia].
  rewrite fst_bind_ret, snd_bind_ret.
  destruct (PyDict.get k (db_livros s)) as [l|] eqn:Hget.
  + rewrite atualizar_livro_found with (l := l) by exact Hget. simpl.
    rewrite length_set_present with (l := l) by exact Hget. lia.
  + rewrite atualizar_livro_404 by exact Hget. simpl. lia.
- rewrite fst_bind_ret, snd_bind_ret.
  destruct (PyDict.get k (db_livros s)) as [l|] eqn:Hget.
  + rewrite deletar_livro_found with (l := l) by exact Hget. simpl.
    rewrite (length_del _ _ Hget). lia.
  + rewrite deletar_livro_404 by exact Hget. simpl. lia.
Qed.

Lemma n_removidos_cons (r : request) (x : resultado response) tr :
  n_removidos ((r, x) :: tr) = (n_removidos [(r, x)] + n_removidos tr)%nat.
Proof. destruct r, x; reflexivity. Qed.

Lemma ids_criados_cons (r : request) (x : resultado response) tr :
  length (ids_criados ((r, x) :: tr)) =
    (length (ids_criados [(r, x)]) + length (ids_criados tr))%nat.
Proof. destruct r, x as [[l|ls|i]|e]; reflexivity. Qed.

Lemma serve_count (rs : list request) :
  forall s, inv s ->
    (length (livros_lista (snd (serve rs s))) + n_removidos (fst (serve rs s)) =
     length (livros_lista s) + length (ids_criados (fst (serve rs s))))%nat.
Proof.
induction rs as [|r rs IH]; intros s Hinv; simpl; [lia|].
pose proof (app_count r Hinv) as Hstep.
pose proof (inv_app r Hinv) as Hinv'.
destruct (app r s) as [x s']. specialize (IH s' Hinv').
destruct (serve rs s') as [tr s'']. simpl fst in *. simpl snd in *.
rewrite n_removidos_cons, ids_criados_cons. lia.
Qed.

(** X16: after any session from the freshly loaded module, the number
    of stored records is the number of creates that succeeded minus the
    number of deletes that succeeded; updates and reads do not count. *)
Theorem record_count (rs : list request) :
  let tr := fst (serve rs store_inicial) in
  let s := snd (serve rs store_inicial) in
  (length (livros_lista s) + n_removidos tr = length (ids_criados tr))%nat.
Proof.
intros tr s. subst tr s.
rewrite (serve_count rs inv_inicial). reflexivity.
Qed.

(* ================================================================== *)
(** ** Updates of different records                                    *)
(* ================================================================== *)

Lemma set_set_comm (k1 k2 : Z) (v1 v2 w1 w2 : Livro) (d : PyDict.t Livro) :
  k1 <> k2 ->
  PyDict.get k1 d = Some w1 -> PyDict.get k2 d = Some w2 ->
  PyDict.set k2 v2 (PyDict.set k1 v1 d) = PyDict.set k1 v1 (PyDict.set k2 v2 d).
Proof.
intros Hne. induction d as [|[k0 v0] d IH]; simpl; [discriminate|].
destruct (k0 =? k1) eqn:E1; destruct (k0 =? k2) eqn:E2; simpl;
  rewrite ?E1, ?E2; auto.
- apply Z.eqb_eq in E1, E2. congruence.
- intros H1 H2. now rewrite IH.
Qed.

(** X17: updates of two different stored records do not interfere:
    each returns the record it would return on its own, and the store
    they leave does not depend on their order. *)
Theorem updates_of_different_ids_commute
  (s : store) (k1 k2 : Z) (l1 l2 : Livro) (u1 u2 : LivroUpdate) :
  k1 <> k2 ->
  PyDict.get k1 (db_livros s) = Some l1 ->
  PyDict.get k2 (db_livros s) = Some l2 ->
  fst (atualizar_livro k2 u2 (snd (atualizar_livro k1 u1 s))) =
    fst (atualizar_livro k2 u2 s) /\
  snd (atualizar_livro k2 u2 (snd (atualizar_livro k1 u1 s))) =
    snd (atualizar_livro k1 u1 (snd (atualizar_livro k2 u2 s))).
Proof.
intros Hne H1 H2.
rewrite atualizar_livro_found with (k := k1) (s := s) (l := l1) by exact H1.
rewrite atualizar_livro_found with (k := k2) (s := s) (l := l2) by exact H2.
simpl snd.
rewrite atualizar_livro_found with (k := k2) (l := l2)
  by (simpl; rewrite PyDictFacts.get_set_other; auto).
rewrite atualizar_livro_found with (k := k1) (l := l1)
  by (simpl; rewrite PyDictFacts.get_set_other; auto).
simpl. split; [reflexivity|].
now rewrite set_set_comm with (w1 := l1) (w2 := l2).
Qed.

Lemma updates_of_different_ids_witness :
  fst (atualizar_livro 2 (mkLivroUpdate Unset Unset (Given (Some 1951)) Unset)
         (snd (atualizar_livro 1 (mkLivroUpdate Unset Unset Unset (Given None))
                               Exemplos.dois_livros))) =
    fst (atualizar_livro 2 (mkLivroUpdate Unset Unset (Given (Some 1951)) Unset)
                         Exemplos.dois_livros) /\
  snd (atualizar_livro 2 (mkLivroUpdate Unset Unset (Given (Some 1951)) Unset)
         (snd (atualizar_livro 1 (mkLivroUpdate Unset Unset Unset (Given None))
                               Exemplos.dois_livros))) =
    snd (atualizar_livro 1 (mkLivroUpdate Unset Unset Unset (Given None))
           (snd (atualizar_livro 2 (mkLivroUpdate Unset Unset (Given (Some 1951)) Unset)
                                 Exemplos.dois_livros))).
Proof.
apply (@updates_of_different_ids_commute Exemplos.dois_livros 1 2
         Exemplos.livro_dune Exemplos.livro_foundation).
- lia.
- reflexivity.
- reflexivity.
Defined.
